(** * The stack catalog resolver of Cortex ([cortex/stack_manager.py])

    A shallow embedding of the class [StackManager] and the proofs of the
    properties its specification states about it.

    Python values are a small inductive type (what [json.load] can return),
    the methods are functions in a state-and-exception monad over the
    manager's one attribute [_stacks] and the two things of the outside world
    the methods look at: the catalog file and the hardware probe. *)

From Stdlib Require Import String Ascii List ZArith Bool Lia DecimalString.
Import ListNotations.
Local Open Scope string_scope.
#[local] Set Warnings "-register-all".

(** ** Python values *)

(** What [json.load] builds: [None], [bool], [int], [float], [str], [list]
    and [dict] with [str] keys.  A Python [str] is kept as its UTF-8 bytes.
    A [float] is kept as the two observations a program can make of it here:
    whether it is non-zero (its truth value) and its printed form.  A [dict]
    is an association list in insertion order; the first binding of a key is
    the binding. *)
Inductive pyval : Type :=
| PNone
| PBool (b : bool)
| PInt (n : Z)
| PFloat (nonzero : bool) (text : string)
| PStr (s : string)
| PList (items : list pyval)
| PDict (fields : list (string * pyval)).

(** The exceptions that can travel through the methods. [JSONDecodeError] is
    the one [json.load] raises; [Exception] stands for whatever a collaborator
    outside this module raises. *)
Inductive exn : Type :=
| FileNotFoundError (msg : string)
| JSONDecodeError
| ValueError (msg : string)
| AttributeError
| TypeError
| KeyError (key : string)
| Exception (msg : string).

Inductive result (A : Type) : Type :=
| Ok (a : A)
| Raise (e : exn).
Arguments Ok {A} a.
Arguments Raise {A} e.

Definition is_ok {A} (r : result A) : bool :=
  match r with Ok _ => true | Raise _ => false end.

Module Py.

(** [x is None] *)
Definition is_None (v : pyval) : bool :=
  match v with PNone => true | _ => false end.

(** [bool(x)], as [if x] and [not x] use it. *)
Definition truthy (v : pyval) : bool :=
  match v with
  | PNone => false
  | PBool b => b
  | PInt n => negb (n =? 0)%Z
  | PFloat nonzero _ => nonzero
  | PStr s => match s with EmptyString => false | String _ _ => true end
  | PList l => match l with [] => false | _ :: _ => true end
  | PDict d => match d with [] => false | _ :: _ => true end
  end.

(** [x == s] for a [str] s: only an equal [str] is equal to it. *)
Definition eq_str (v : pyval) (s : string) : bool :=
  match v with PStr t => String.eqb t s | _ => false end.

Fixpoint lookup (d : list (string * pyval)) (k : string) : option pyval :=
  match d with
  | [] => None
  | (k', v) :: rest => if String.eqb k' k then Some v else lookup rest k
  end.

Fixpoint mem (k : string) (l : list string) : bool :=
  match l with
  | [] => false
  | k' :: rest => String.eqb k' k || mem k rest
  end.

(** The keys of a dict, in insertion order, each once. *)
Fixpoint keys_from (seen : list string) (d : list (string * pyval)) : list string :=
  match d with
  | [] => []
  | (k, _) :: rest =>
      if mem k seen then keys_from seen rest else k :: keys_from (k :: seen) rest
  end.

Definition keys (d : list (string * pyval)) : list string := keys_from [] d.

(** [x[k]] for a [str] key: a [dict] is looked up, nothing else can be
    subscripted by a [str]. *)
Definition getitem (v : pyval) (k : string) : result pyval :=
  match v with
  | PDict d =>
      match lookup d k with
      | Some x => Ok x
      | None => Raise (KeyError k)
      end
  | _ => Raise TypeError
  end.

(** [x.get(k, default)]: only a [dict] has the method. *)
Definition get (v : pyval) (k : string) (default : pyval) : result pyval :=
  match v with
  | PDict d =>
      match lookup d k with
      | Some x => Ok x
      | None => Ok default
      end
  | _ => Raise AttributeError
  end.

(** A byte that continues a UTF-8 sequence: 10xxxxxx. *)
Definition continuation (c : ascii) : bool :=
  let n := nat_of_ascii c in (128 <=? n)%nat && (n <? 192)%nat.

(** The characters of a [str], each as a [str] of its own. *)
Fixpoint chars (s : string) : list string :=
  match s with
  | EmptyString => []
  | String c rest =>
      match chars rest with
      | [] => [String c EmptyString]
      | t :: ts =>
          match t with
          | String c' _ =>
              if continuation c' then String c t :: ts
              else String c EmptyString :: t :: ts
          | EmptyString => String c EmptyString :: ts
          end
      end
  end.

(** [iter(x)], as [for], [enumerate] and [str.join] use it. *)
Definition iter (v : pyval) : result (list pyval) :=
  match v with
  | PList l => Ok l
  | PStr s => Ok (map PStr (chars s))
  | PDict d => Ok (map PStr (keys d))
  | _ => Raise TypeError
  end.

(** [str(n)] for an [int]. *)
Definition str_of_int (n : Z) : string := NilZero.string_of_int (Z.to_int n).

Fixpoint as_strs (items : list pyval) : result (list string) :=
  match items with
  | [] => Ok []
  | PStr s :: rest =>
      match as_strs rest with
      | Ok ss => Ok (s :: ss)
      | Raise e => Raise e
      end
  | _ :: _ => Raise TypeError
  end.

(** [sep.join(x)]: x is iterated and every item has to be a [str]. *)
Definition join (sep : string) (v : pyval) : result string :=
  match iter v with
  | Ok items =>
      match as_strs items with
      | Ok ss => Ok (String.concat sep ss)
      | Raise e => Raise e
      end
  | Raise e => Raise e
  end.

End Py.

(** The line feed and the package emoji (U+1F4E6, as UTF-8) of the
    [describe_stack] templates. *)
Definition nl : string := String "010" EmptyString.
Definition package_emoji : string :=
  String "240" (String "159" (String "147" (String "166" EmptyString))).

(** ** The manager and its world *)

(** The catalog file as [open] and [json.load] see it: not there, there but
    not JSON, or there with the JSON document [doc]. *)
Inductive file : Type :=
| Absent
| NotJson
| Json (doc : pyval).

(** [_stacks] is the attribute of the [StackManager] object and
    [stacks_file] its path attribute.  [disk] is the file at that path and
    [probe] what a call of [has_nvidia_gpu()] does (it is imported from
    [cortex.hardware_detection]): both belong to the world and no method
    changes them.  [opens] counts the calls of [open]. *)
Record state : Type := mkState {
  stacks_file : string;
  disk : file;
  probe : result bool;
  _stacks : pyval;
  opens : nat
}.

Definition set_stacks (v : pyval) (st : state) : state :=
  mkState (stacks_file st) (disk st) (probe st) v (opens st).

Definition count_open (st : state) : state :=
  mkState (stacks_file st) (disk st) (probe st) (_stacks st) (S (opens st)).

(** [StackManager.__init__]: nothing is loaded. *)
Definition init (path : string) (f : file) (p : result bool) : state :=
  mkState path f p PNone 0.

(** Computations that read and write the state and may raise; the state
    a computation has written stays written when it raises. *)
Definition M (A : Type) : Type := state -> result A * state.

Definition ret {A} (a : A) : M A := fun st => (Ok a, st).

Definition raise {A} (e : exn) : M A := fun st => (Raise e, st).

Definition bind {A B} (m : M A) (k : A -> M B) : M B :=
  fun st =>
    match m st with
    | (Ok a, st') => k a st'
    | (Raise e, st') => (Raise e, st')
    end.

Definition lift {A} (r : result A) : M A := fun st => (r, st).

(** [try: m except ...: handler] *)
Definition try_except {A} (m : M A) (handler : exn -> M A) : M A :=
  fun st =>
    match m st with
    | (Ok a, st') => (Ok a, st')
    | (Raise e, st') => handler e st'
    end.

Declare Scope py_scope.
Delimit Scope py_scope with py.
Notation "x <- m ;; k" := (bind m (fun x => k))
  (at level 61, m at next level, right associativity) : py_scope.
Notation "m ;;; k" := (bind m (fun _ => k))
  (at level 61, right associativity) : py_scope.
Local Open Scope py_scope.

Definition get_state : M state := fun st => (Ok st, st).

(** [open(self.stacks_file, 'r')] *)
Definition py_open : M file :=
  fun st =>
    match disk st with
    | Absent => (Raise (FileNotFoundError "No such file or directory"), count_open st)
    | f => (Ok f, count_open st)
    end.

(** [json.load(f)] *)
Definition json_load (f : file) : M pyval :=
  match f with
  | Json doc => ret doc
  | _ => raise JSONDecodeError
  end.

(** [has_nvidia_gpu()] *)
Definition has_nvidia_gpu : M bool := fun st => (probe st, st).

(** ** The methods of [StackManager] *)

Definition load_stacks : M pyval :=
  st <- get_state ;;
  if negb (Py.is_None (_stacks st)) then ret (_stacks st)
  else
    try_except
      (f <- py_open ;;
       doc <- json_load f ;;
       (fun st => (Ok tt, set_stacks doc st)) ;;;
       st' <- get_state ;;
       ret (_stacks st'))
      (fun e =>
         match e with
         | FileNotFoundError _ =>
             st' <- get_state ;;
             raise (FileNotFoundError ("Stacks config not found at " ++ stacks_file st'))
         | JSONDecodeError =>
             st' <- get_state ;;
             raise (ValueError ("Invalid JSON in " ++ stacks_file st'))
         | _ => raise e
         end).

Definition list_stacks : M pyval :=
  stacks <- load_stacks ;;
  lift (Py.get stacks "stacks" (PList [])).

(** The [for] loop of [find_stack], over the items still to visit. *)
Fixpoint find_stack_loop (stacks : list pyval) (stack_id : string) : result pyval :=
  match stacks with
  | [] => Ok PNone
  | stack :: rest =>
      match Py.getitem stack "id" with
      | Ok id =>
          if Py.eq_str id stack_id then Ok stack
          else find_stack_loop rest stack_id
      | Raise e => Raise e
      end
  end.

Definition find_stack (stack_id : string) : M pyval :=
  stacks <- list_stacks ;;
  items <- lift (Py.iter stacks) ;;
  lift (find_stack_loop items stack_id).

Definition get_stack_packages (stack_id : string) : M pyval :=
  stack <- find_stack stack_id ;;
  if negb (Py.truthy stack) then ret (PList [])
  else lift (Py.get stack "packages" (PList [])).

Definition suggest_stack (base_stack : string) : M string :=
  if String.eqb base_stack "ml" then
    gpu <- has_nvidia_gpu ;;
    if gpu then ret "ml" else ret "ml-cpu"
  else ret base_stack.

Section Describe.

(** [repr] of a [list] or a [dict], which an f-string prints for such a
    value; it is Python's own and stays abstract. *)
Variable container_repr : pyval -> string.

(** [format(x, "")], what [f"{x}"] inserts. *)
Definition format (v : pyval) : string :=
  match v with
  | PNone => "None"
  | PBool true => "True"
  | PBool false => "False"
  | PInt n => Py.str_of_int n
  | PFloat _ text => text
  | PStr s => s
  | PList _ | PDict _ => container_repr v
  end.

(** The loop over [enumerate(packages, idx)]. *)
Fixpoint package_lines (idx : Z) (packages : list pyval) (output : string) : string :=
  match packages with
  | [] => output
  | pkg :: rest =>
      package_lines (idx + 1) rest
        (output ++ "  " ++ Py.str_of_int idx ++ ". " ++ format pkg ++ nl)
  end.

Definition describe_stack (stack_id : string) : M string :=
  stack <- find_stack stack_id ;;
  if negb (Py.truthy stack) then ret ("Stack '" ++ stack_id ++ "' not found")
  else
    name <- lift (Py.getitem stack "name") ;;
    let output := nl ++ package_emoji ++ " Stack: " ++ format name ++ nl in
    description <- lift (Py.getitem stack "description") ;;
    let output := output ++ "Description: " ++ format description ++ nl ++ nl in
    let output := output ++ "Packages included:" ++ nl in
    packages <- lift (Py.get stack "packages" (PList [])) ;;
    pkgs <- lift (Py.iter packages) ;;
    let output := package_lines 1 pkgs output in
    tags <- lift (Py.get stack "tags" (PList [])) ;;
    output <- (if Py.truthy tags then
                 joined <- lift (Py.join ", " tags) ;;
                 ret (output ++ nl ++ "Tags:  " ++ joined ++ nl)
               else ret output) ;;
    hardware <- lift (Py.get stack "hardware" (PStr "any")) ;;
    let output := output ++ "Hardware: " ++ format hardware ++ nl in
    ret output.

End Describe.


(** ** Runs of the manager *)

(** The calls a client can make on the manager. *)
Inductive op : Type :=
| OpLoad
| OpList
| OpFind (stack_id : string)
| OpPackages (stack_id : string)
| OpSuggest (base_stack : string)
| OpDescribe (stack_id : string).

(** The state a call leaves, whether it returns or raises. *)
Definition run_op (repr : pyval -> string) (o : op) (st : state) : state :=
  match o with
  | OpLoad => snd (load_stacks st)
  | OpList => snd (list_stacks st)
  | OpFind stack_id => snd (find_stack stack_id st)
  | OpPackages stack_id => snd (get_stack_packages stack_id st)
  | OpSuggest base_stack => snd (suggest_stack base_stack st)
  | OpDescribe stack_id => snd (describe_stack repr stack_id st)
  end.

Definition run_ops (repr : pyval -> string) (ops : list op) (st : state) : state :=
  fold_left (fun s o => run_op repr o s) ops st.

(** The world replaces the catalog file. *)
Definition set_disk (f : file) (st : state) : state :=
  mkState (stacks_file st) f (probe st) (_stacks st) (opens st).

(** A computation that leaves the state [st] as it is. *)
Definition readonly {A} (m : M A) (st : state) : Prop := snd (m st) = st.

Definition not_found_msg (st : state) : string :=
  "Stacks config not found at " ++ stacks_file st.

Definition invalid_json_msg (st : state) : string :=
  "Invalid JSON in " ++ stacks_file st.

(** ** The catalog document of the specification *)

Module Schema.







(** An entry that carries an [id] field, whatever its value. *)
Definition has_id (entry : pyval) : bool := is_ok (Py.getitem entry "id").

(** An entry the scan for [stack_id] walks past: it has an [id] and the
    [id] is another one. *)
Definition other_id (stack_id : string) (entry : pyval) : bool :=
  match Py.getitem entry "id" with
  | Ok v => negb (Py.eq_str v stack_id)
  | Raise _ => false
  end.

(** The fields [describe] prints, read off a stack object: the name and the
    description are strings, the packages and the tags are sequences of
    strings (none when the field is absent), the hardware tag is a string
    or absent. *)
Record summary_fields : Type := mkFields {
  f_name : string;
  f_description : string;
  f_packages : list string;
  f_tags : list string;
  f_hardware : option string
}.

Definition read_strs (o : option pyval) : option (list string) :=
  match o with
  | None => Some []
  | Some (PList l) =>
      match Py.as_strs l with Ok ss => Some ss | Raise _ => None end
  | Some _ => None
  end.

Definition read_fields (stack : pyval) : option summary_fields :=
  match stack with
  | PDict d =>
      match Py.lookup d "name", Py.lookup d "description",
            read_strs (Py.lookup d "packages"), read_strs (Py.lookup d "tags") with
      | Some (PStr name), Some (PStr description), Some packages, Some tags =>
          match Py.lookup d "hardware" with
          | None => Some (mkFields name description packages tags None)
          | Some (PStr h) => Some (mkFields name description packages tags (Some h))
          | Some _ => None
          end
      | _, _, _, _ => None
      end
  | _ => None
  end.

(** The numbered entries, one line each: [  1. first], [  2. second], ... *)
Fixpoint numbered (n : nat) (packages : list string) : string :=
  match packages with
  | [] => ""
  | p :: rest =>
      "  " ++ Py.str_of_int (Z.of_nat n) ++ ". " ++ p ++ nl ++ numbered (S n) rest
  end.

(** The tags line, there only when there are tags. *)
Definition tags_line (tags : list string) : string :=
  match tags with
  | [] => ""
  | _ :: _ => nl ++ "Tags:  " ++ String.concat ", " tags ++ nl
  end.

(** The hardware line, [any] when the stack names no requirement. *)
Definition hardware_line (hardware : option string) : string :=
  "Hardware: " ++ match hardware with Some h => h | None => "any" end ++ nl.

(** The summary: name, description, numbered packages, tags, hardware. *)
Definition summary (f : summary_fields) : string :=
  (nl ++ package_emoji ++ " Stack: " ++ f_name f ++ nl)
  ++ ("Description: " ++ f_description f ++ nl ++ nl)
  ++ ("Packages included:" ++ nl)
  ++ numbered 1 (f_packages f)
  ++ tags_line (f_tags f)
  ++ hardware_line (f_hardware f).

Definition not_found (stack_id : string) : string :=
  "Stack '" ++ stack_id ++ "' not found".

End Schema.

(** ** A catalog to run the methods on *)

Module Example.

Definition ml : pyval :=
  PDict [("id", PStr "ml"); ("name", PStr "ML Stack"); ("description", PStr "d");
         ("packages", PList [PStr "torch"; PStr "numpy"])].

Definition ml_cpu : pyval :=
  PDict [("id", PStr "ml-cpu"); ("name", PStr "ML Stack (CPU)");
         ("description", PStr "d"); ("packages", PList [PStr "numpy"])].

Definition webdev : pyval :=
  PDict [("id", PStr "webdev"); ("name", PStr "Web Development");
         ("description", PStr "Web server and runtime");
         ("packages", PList [PStr "nginx"; PStr "nodejs"])].

(** An entry without [id]. *)
Definition nameless : pyval :=
  PDict [("name", PStr "Nameless"); ("packages", PList [PStr "vim"])].

Definition catalog : list (string * pyval) :=
  [("stacks", PList [ml; ml_cpu; webdev])].

Definition broken_catalog : list (string * pyval) :=
  [("stacks", PList [ml; nameless; webdev])].

(** A new manager beside a file holding [doc], on a machine without GPU. *)
Definition fresh (doc : list (string * pyval)) : state :=
  init "cortex/stacks.json" (Json (PDict doc)) (Ok false).

(** The same manager once the catalog is loaded. *)
Definition loaded (doc : list (string * pyval)) : state :=
  mkState "cortex/stacks.json" (Json (PDict doc)) (Ok false) (PDict doc) 1.

End Example.

(** ** Terminal output ([cortex/output_formatter.py], [cortex/branding.py]) *)

(** A [str] given by its UTF-8 bytes. *)
Definition utf8 (bytes : list nat) : string :=
  fold_right (fun b s => String (ascii_of_nat b) s) EmptyString bytes.

(** [len(s)]: the number of characters. *)
Definition py_len (s : string) : nat := length (Py.chars s).

Fixpoint spaces (n : nat) : string :=
  match n with
  | O => EmptyString
  | S k => String " " (spaces k)
  end.

(** [s.ljust(width)] *)
Definition ljust (s : string) (width : nat) : string :=
  s ++ spaces (width - py_len s).

(** [needle in haystack] for two [str]: [starts_with] is the test at one
    place. *)
Fixpoint starts_with (needle haystack : string) : bool :=
  match needle, haystack with
  | EmptyString, _ => true
  | String _ _, EmptyString => false
  | String a needle', String b haystack' =>
      Ascii.eqb a b && starts_with needle' haystack'
  end.

Fixpoint contains (needle haystack : string) : bool :=
  starts_with needle haystack
  || match haystack with
     | EmptyString => false
     | String _ rest => contains needle rest
     end.

(** The objects of the rich library, as the arguments they are built from;
    an argument a call does not pass has the default of the library. *)
Module Rich.

Record Panel : Type := mkPanel {
  renderable : string;
  title : option string;
  subtitle : option string;
  border_style : string;
  padding : nat * nat;
  expand : bool;
  box : string
}.

(** A [Tree] with the branches [add] has given it, in the order of the calls. *)
Inductive Tree : Type :=
| Node (label : string) (children : list Tree).

(** A column, as [Table.add_column] is called. *)
Record Column : Type := mkColumn {
  col_header : string;
  col_style : string;
  col_justify : string;
  col_width : option nat;
  col_no_wrap : bool
}.

(** A [Table] with the columns and rows added to it, in the order of the
    calls; a row is its cells and its style. *)
Record Table : Type := mkTable {
  table_title : option string;
  show_header : bool;
  header_style : string;
  table_border_style : string;
  show_lines : bool;
  table_box : string;
  table_padding : nat * nat;
  columns : list Column;
  rows : list (list string * option string)
}.

End Rich.

Module Formatter.

Inductive OutputStyle : Type :=
| DEFAULT
| SUCCESS
| WARNING
| ERROR
| INFO
| MUTED.

Record StatusInfo : Type := mkStatusInfo {
  label : string;
  value : string;
  style : OutputStyle
}.

(** [style_colors.get(item.style, "white")] of [format_status_box]. *)
Definition status_color (s : OutputStyle) : string :=
  match s with
  | SUCCESS => "green"
  | WARNING => "yellow"
  | ERROR => "red"
  | INFO => "cyan"
  | MUTED => "dim"
  | DEFAULT => "white"
  end.

(** [max(len(l) for l in labels) if labels else 0] *)
Definition max_label_len (labels : list string) : nat :=
  match labels with
  | [] => 0
  | l :: rest => fold_left Nat.max (map py_len rest) (py_len l)
  end.

(** One line of a status box. *)
Definition status_line (width : nat) (label color value : string) : string :=
  "  [dim]" ++ ljust label width ++ ":[/dim]  [" ++ color ++ "]" ++ value
  ++ "[/" ++ color ++ "]".

Definition format_status_box (title : string) (items : list StatusInfo)
  (border_style : string) : Rich.Panel :=
  let max_label_len := max_label_len (map label items) in
  let lines :=
    map (fun item => status_line max_label_len (label item)
                       (status_color (style item)) (value item)) items in
  let content := String.concat nl lines in
  Rich.mkPanel content (Some ("[bold cyan]" ++ title ++ "[/bold cyan]")) None
    border_style (1, 2) true "ROUNDED".

(** [STATUS_ICONS] *)
Definition STATUS_ICONS : list (string * string) :=
  [("success", utf8 [226; 156; 147]);
   ("error", utf8 [226; 156; 151]);
   ("warning", utf8 [226; 154; 160]);
   ("info", utf8 [226; 132; 185]);
   ("pending", utf8 [226; 151; 139]);
   ("running", utf8 [226; 151; 143]);
   ("skipped", utf8 [226; 151; 140]);
   ("active", utf8 [226; 150; 182]);
   ("installed", utf8 [240; 159; 147; 166]);
   ("removed", utf8 [240; 159; 151; 145; 239; 184; 143]);
   ("updated", utf8 [240; 159; 148; 132])].

(** A [dict] from [str] to [str], in insertion order. *)
Fixpoint dict_get (k : string) (d : list (string * string)) : option string :=
  match d with
  | [] => None
  | (k', v) :: rest => if String.eqb k' k then Some v else dict_get k rest
  end.

(** [d[k] = v]: the value of a key that is there is replaced where it is, a
    new key goes to the end. *)
Fixpoint dict_set (k v : string) (d : list (string * string)) : list (string * string) :=
  match d with
  | [] => [(k, v)]
  | (k', v') :: rest =>
      if String.eqb k' k then (k', v) :: rest else (k', v') :: dict_set k v rest
  end.

(** [k in d] *)
Definition dict_mem (k : string) (d : list (string * string)) : bool :=
  match dict_get k d with Some _ => true | None => false end.

(** [STATUS_ICONS[k]] *)
Definition status_icon (k : string) : result string :=
  match dict_get k STATUS_ICONS with
  | Some icon => Ok icon
  | None => Raise (KeyError k)
  end.

(** A [Live] display: what it shows and whether it is running. *)
Record Live : Type := mkLive {
  live_renderable : Rich.Panel;
  live_started : bool
}.

(** A [MultiStepProgress] object, and in [console] what has been printed. *)
Record MultiStepProgress : Type := mkProgress {
  steps : list string;
  title : string;
  step_status : list (string * string);
  _live : option Live;
  console : list Rich.Panel
}.

(** [MultiStepProgress.__init__] *)
Definition new_progress (steps : list string) (title : string) : MultiStepProgress :=
  mkProgress steps title
    (fold_left (fun d step => dict_set step "pending" d) steps []) None [].

(** The body of the loop of [_render]: the line of one step. *)
Definition render_line (status_of : list (string * string)) (step : string) : result string :=
  match dict_get step status_of with
  | None => Raise (KeyError step)
  | Some status =>
      let icon_style :=
        if String.eqb status "pending" then ("dim", "pending", "dim")
        else if String.eqb status "running" then ("cyan", "running", "cyan")
        else if String.eqb status "completed" then ("green", "success", "green")
        else if String.eqb status "failed" then ("red", "error", "red")
        else ("dim", "skipped", "dim") in
      let '(icon_color, icon_name, style) := icon_style in
      match status_icon icon_name with
      | Raise e => Raise e
      | Ok glyph =>
          let icon := "[" ++ icon_color ++ "]" ++ glyph ++ "[/" ++ icon_color ++ "]" in
          Ok ("  " ++ icon ++ " [" ++ style ++ "]" ++ step ++ "[/" ++ style ++ "]")
      end
  end.

Fixpoint render_lines (status_of : list (string * string)) (steps : list string)
  : result (list string) :=
  match steps with
  | [] => Ok []
  | step :: rest =>
      match render_line status_of step with
      | Raise e => Raise e
      | Ok line =>
          match render_lines status_of rest with
          | Raise e => Raise e
          | Ok lines => Ok (line :: lines)
          end
      end
  end.

Definition _render (p : MultiStepProgress) : result Rich.Panel :=
  match render_lines (step_status p) (steps p) with
  | Raise e => Raise e
  | Ok lines =>
      Ok (Rich.mkPanel (String.concat nl lines)
            (Some ("[bold cyan]" ++ title p ++ "[/bold cyan]")) None
            "cyan" (1, 2) true "ROUNDED")
  end.

Definition set_live (l : option Live) (p : MultiStepProgress) : MultiStepProgress :=
  mkProgress (steps p) (title p) (step_status p) l (console p).

(** [__enter__] *)
Definition enter (p : MultiStepProgress) : result unit * MultiStepProgress :=
  match _render p with
  | Raise e => (Raise e, p)
  | Ok panel => (Ok tt, set_live (Some (mkLive panel true)) p)
  end.

(** [__exit__] *)
Definition exit (p : MultiStepProgress) : result unit * MultiStepProgress :=
  match _live p with
  | Some l =>
      let p := set_live (Some (mkLive (live_renderable l) false)) p in
      match _render p with
      | Raise e => (Raise e, p)
      | Ok panel =>
          (Ok tt, mkProgress (steps p) (title p) (step_status p) (_live p)
                    (console p ++ [panel]))
      end
  | None => (Ok tt, p)
  end.

(** The common body of [start_step], [complete_step], [fail_step] and
    [skip_step], which differ in the status they write. *)
Definition mark_step (status step : string) (p : MultiStepProgress)
  : result unit * MultiStepProgress :=
  if dict_mem step (step_status p) then
    let p := mkProgress (steps p) (title p) (dict_set step status (step_status p))
               (_live p) (console p) in
    match _live p with
    | Some l =>
        match _render p with
        | Raise e => (Raise e, p)
        | Ok panel => (Ok tt, set_live (Some (mkLive panel (live_started l))) p)
        end
    | None => (Ok tt, p)
    end
  else (Ok tt, p).

Definition start_step : string -> MultiStepProgress -> result unit * MultiStepProgress :=
  mark_step "running".

Definition complete_step : string -> MultiStepProgress -> result unit * MultiStepProgress :=
  mark_step "completed".

Definition fail_step : string -> MultiStepProgress -> result unit * MultiStepProgress :=
  mark_step "failed".

Definition skip_step : string -> MultiStepProgress -> result unit * MultiStepProgress :=
  mark_step "skipped".

(** The calls a client makes on a [MultiStepProgress]. *)
Inductive call : Type :=
| Enter
| Exit
| Start (step : string)
| Complete (step : string)
| Fail (step : string)
| Skip (step : string).

Definition run_call (c : call) (p : MultiStepProgress) : result unit * MultiStepProgress :=
  match c with
  | Enter => enter p
  | Exit => exit p
  | Start step => start_step step p
  | Complete step => complete_step step p
  | Fail step => fail_step step p
  | Skip step => skip_step step p
  end.

(** The object after a sequence of calls, whether they return or raise. *)
Definition run_calls (calls : list call) (p : MultiStepProgress) : MultiStepProgress :=
  fold_left (fun p c => snd (run_call c p)) calls p.

(** The status the last call about [step] has written, [pending] if there
    was none. *)
Definition written (step : string) (c : call) : option string :=
  match c with
  | Start s => if String.eqb s step then Some "running" else None
  | Complete s => if String.eqb s step then Some "completed" else None
  | Fail s => if String.eqb s step then Some "failed" else None
  | Skip s => if String.eqb s step then Some "skipped" else None
  | Enter | Exit => None
  end.

Definition last_written (step : string) (calls : list call) : string :=
  fold_left (fun status c => match written step c with Some s => s | None => status end)
    calls "pending".

Record TableColumn : Type := mkTableColumn {
  header : string;
  column_style : string;
  justify : string;
  width : option nat;
  no_wrap : bool
}.

(** [row_styles[i] if row_styles and i < len(row_styles) else None] *)
Definition row_style (row_styles : option (list string)) (i : nat) : option string :=
  match row_styles with
  | Some (s :: l) => if (i <? length (s :: l))%nat then nth_error (s :: l) i else None
  | Some [] | None => None
  end.

(** The loop over [enumerate(rows)], from the index [i] on. *)
Fixpoint add_rows (row_styles : option (list string)) (i : nat) (rows : list (list string))
  : list (list string * option string) :=
  match rows with
  | [] => []
  | row :: rest => (row, row_style row_styles i) :: add_rows row_styles (S i) rest
  end.

Definition format_table (columns : list TableColumn) (rows : list (list string))
  (title : option string) (show_header show_lines : bool)
  (row_styles : option (list string)) : Rich.Table :=
  Rich.mkTable
    (match title with
     | Some (String c t) => Some ("[bold cyan]" ++ String c t ++ "[/bold cyan]")
     | Some EmptyString | None => None
     end)
    show_header "bold cyan" "cyan" show_lines "ROUNDED" (0, 1)
    (map (fun col => Rich.mkColumn (header col) (column_style col) (justify col)
                       (width col) (no_wrap col)) columns)
    (add_rows row_styles 0 rows).


(** [dependencies.get(pkg, [])] *)
Fixpoint deps_of (pkg : string) (dependencies : list (string * list string)) : list string :=
  match dependencies with
  | [] => []
  | (k, deps) :: rest => if String.eqb k pkg then deps else deps_of pkg rest
  end.

(** The loop of [add_deps] over the dependencies of a package: a branch
    for each, with below it what the recursive call adds. *)
Fixpoint add_branches (below : string -> option (list Rich.Tree)) (deps : list string)
  : option (list Rich.Tree) :=
  match deps with
  | [] => Some []
  | dep :: rest =>
      match below dep with
      | None => None
      | Some under =>
          match add_branches below rest with
          | None => None
          | Some others => Some (Rich.Node ("[cyan]" ++ dep ++ "[/cyan]") under :: others)
          end
      end
  end.

(** [add_deps] of [format_dependency_tree]: the branches the call adds to
    [parent_tree], for a depth of recursion of at most [fuel]; [None] when
    the recursion would go deeper. *)
Fixpoint add_deps (fuel : nat) (dependencies : list (string * list string))
  (pkg : string) (visited : list string) : option (list Rich.Tree) :=
  match fuel with
  | O => None
  | S fuel =>
      if Py.mem pkg visited then
        Some [Rich.Node ("[dim]" ++ pkg ++ " (circular)[/dim]") []]
      else
        add_branches (fun dep => add_deps fuel dependencies dep (pkg :: visited))
          (deps_of pkg dependencies)
  end.

Definition format_dependency_tree (fuel : nat) (package : string)
  (dependencies : list (string * list string)) (title : option string)
  : option Rich.Tree :=
  let root :=
    match title with
    | Some (String c t) => String c t
    | Some EmptyString | None => package
    end in
  match add_deps fuel dependencies package [] with
  | None => None
  | Some branches => Some (Rich.Node ("[bold cyan]" ++ root ++ "[/bold cyan]") branches)
  end.

(** The entries of the dict whose key has not been visited. *)
Definition unvisited (dependencies : list (string * list string)) (visited : list string)
  : nat :=
  length (filter (fun kv => negb (Py.mem (fst kv) visited)) dependencies).

(** The number of levels of a tree. *)
Fixpoint height (t : Rich.Tree) : nat :=
  match t with
  | Rich.Node _ children => S (fold_right (fun c h => Nat.max (height c) h) 0 children)
  end.

End Formatter.

Module Branding.

Section PackageTable.

(** [str.lower], which is Python's own. *)
Variable lower : string -> string.

(** The style [cx_package_table] gives the action of a row. *)
Definition action_styled (action : string) : string :=
  if contains "install" (lower action) then "[green]" ++ action ++ "[/green]"
  else if contains "remove" (lower action) || contains "uninstall" (lower action)
  then "[red]" ++ action ++ "[/red]"
  else if contains "update" (lower action) || contains "upgrade" (lower action)
  then "[yellow]" ++ action ++ "[/yellow]"
  else action.

(** [cx_package_table]: the table it prints. *)
Definition cx_package_table (packages : list (string * string * string))
  (title : string) : Rich.Table :=
  Rich.mkTable (Some ("[bold cyan]" ++ title ++ "[/bold cyan]"))
    true "bold cyan" "cyan" false "ROUNDED" (0, 1)
    [Rich.mkColumn "Package" "cyan" "left" None true;
     Rich.mkColumn "Version" "white" "left" None false;
     Rich.mkColumn "Action" "green" "left" None false]
    (map (fun pkg =>
            match pkg with
            | (name, version, action) => ([name; version; action_styled action], None)
            end) packages).

End PackageTable.

(** [str.lower] on ASCII letters. *)
Fixpoint ascii_lower (s : string) : string :=
  match s with
  | EmptyString => EmptyString
  | String c rest =>
      let n := nat_of_ascii c in
      String (if (65 <=? n)%nat && (n <=? 90)%nat then ascii_of_nat (n + 32) else c)
        (ascii_lower rest)
  end.

End Branding.

(** ** The monad *)

Lemma bind_run {A B} (m : M A) (k : A -> M B) st r st' :
  m st = (r, st') ->
  bind m k st = match r with Ok a => k a st' | Raise e => (Raise e, st') end.
Proof. intros H. unfold bind. now rewrite H. Qed.

Lemma readonly_ret {A} (a : A) st : readonly (ret a) st.
Proof. reflexivity. Qed.

Lemma readonly_raise {A} (e : exn) st : readonly (@raise A e) st.
Proof. reflexivity. Qed.

Lemma readonly_lift {A} (r : result A) st : readonly (lift r) st.
Proof. reflexivity. Qed.

Lemma readonly_bind {A B} (m : M A) (k : A -> M B) st :
  readonly m st -> (forall a, readonly (k a) st) -> readonly (bind m k) st.
Proof.
  unfold readonly, bind. intros Hm Hk.
  destruct (m st) as [[a|e] st'] eqn:E; simpl in Hm; subst st'.
  - apply Hk.
  - reflexivity.
Qed.

Lemma readonly_if {A} (b : bool) (m1 m2 : M A) st :
  readonly m1 st -> readonly m2 st -> readonly (if b then m1 else m2) st.
Proof. now destruct b. Qed.

Create HintDb readonly.
#[export] Hint Resolve readonly_ret readonly_raise readonly_lift readonly_if : readonly.

(** ** Loading *)

(** What one call of [load_stacks] does, case by case. *)
Lemma load_stacks_cases st :
  load_stacks st =
  if Py.is_None (_stacks st) then
    match disk st with
    | Absent => (Raise (FileNotFoundError (not_found_msg st)), count_open st)
    | NotJson => (Raise (ValueError (invalid_json_msg st)), count_open st)
    | Json doc => (Ok doc, set_stacks doc (count_open st))
    end
  else (Ok (_stacks st), st).
Proof.
  unfold load_stacks, bind, get_state, try_except, py_open.
  destruct (Py.is_None (_stacks st)); simpl; [|reflexivity].
  destruct (disk st); reflexivity.
Qed.

Lemma load_stacks_hit st :
  Py.is_None (_stacks st) = false -> load_stacks st = (Ok (_stacks st), st).
Proof. intros H. rewrite load_stacks_cases. now rewrite H. Qed.

Lemma is_None_false v : v <> PNone -> Py.is_None v = false.
Proof. destruct v; intros H; try reflexivity. now elim H. Qed.

Lemma is_None_true v : Py.is_None v = true -> v = PNone.
Proof. now destruct v. Qed.

(** After a load that returned something else than [None], that value is the
    attribute. *)
Lemma load_stacks_stores st v st1 :
  load_stacks st = (Ok v, st1) -> v <> PNone -> _stacks st1 = v.
Proof.
  rewrite load_stacks_cases. intros H Hv.
  destruct (Py.is_None (_stacks st)) eqn:E.
  - destruct (disk st); inversion H; subst. reflexivity.
  - inversion H; subst. reflexivity.
Qed.

(** A load that returns a dict leaves a state in which the dict is cached. *)
Lemma load_stacks_dict st cat :
  fst (load_stacks st) = Ok (PDict cat) ->
  load_stacks st = (Ok (PDict cat), snd (load_stacks st))
  /\ _stacks (snd (load_stacks st)) = PDict cat.
Proof.
  intros H.
  assert (E : load_stacks st = (Ok (PDict cat), snd (load_stacks st))).
  { rewrite <- H. apply surjective_pairing. }
  split; [exact E|].
  apply (load_stacks_stores _ _ _ E). discriminate.
Qed.

Lemma readonly_load_stacks st :
  Py.is_None (_stacks st) = false -> readonly load_stacks st.
Proof. intros H. unfold readonly. now rewrite load_stacks_hit. Qed.

Lemma readonly_list_stacks st :
  Py.is_None (_stacks st) = false -> readonly list_stacks st.
Proof.
  intros H. unfold list_stacks.
  apply readonly_bind; auto using readonly_load_stacks with readonly.
Qed.

Lemma readonly_find_stack stack_id st :
  Py.is_None (_stacks st) = false -> readonly (find_stack stack_id) st.
Proof.
  intros H. unfold find_stack.
  apply readonly_bind; [now apply readonly_list_stacks|intros].
  apply readonly_bind; auto with readonly.
Qed.

Lemma readonly_get_stack_packages stack_id st :
  Py.is_None (_stacks st) = false -> readonly (get_stack_packages stack_id) st.
Proof.
  intros H. unfold get_stack_packages.
  apply readonly_bind; [now apply readonly_find_stack|intros].
  auto with readonly.
Qed.

Lemma readonly_suggest_stack base_stack st : readonly (suggest_stack base_stack) st.
Proof.
  unfold suggest_stack, readonly, bind, has_nvidia_gpu.
  destruct (String.eqb base_stack "ml"); [|reflexivity].
  destruct (probe st) as [[|]|e]; reflexivity.
Qed.

Lemma readonly_describe_stack repr stack_id st :
  Py.is_None (_stacks st) = false -> readonly (describe_stack repr stack_id) st.
Proof.
  intros H. unfold describe_stack.
  apply readonly_bind; [now apply readonly_find_stack|intros stack].
  apply readonly_if; [apply readonly_ret|].
  repeat (apply readonly_bind; [auto with readonly|intros]).
  - apply readonly_if; [|apply readonly_ret].
    apply readonly_bind; auto with readonly.
  - repeat (apply readonly_bind; [auto with readonly|intros]).
    apply readonly_ret.
Qed.

(** Once something is cached, no call changes the state. *)
Lemma run_op_loaded repr o st :
  Py.is_None (_stacks st) = false -> run_op repr o st = st.
Proof.
  intros H. destruct o; simpl.
  - now apply readonly_load_stacks.
  - now apply readonly_list_stacks.
  - now apply readonly_find_stack.
  - now apply readonly_get_stack_packages.
  - apply readonly_suggest_stack.
  - now apply readonly_describe_stack.
Qed.

Lemma run_ops_loaded repr ops st :
  Py.is_None (_stacks st) = false -> run_ops repr ops st = st.
Proof.
  intros H. unfold run_ops. induction ops as [|o ops IH]; simpl.
  - reflexivity.
  - rewrite (run_op_loaded repr o st H). exact IH.
Qed.

(** ** Variant resolution *)

(** C1, as amended. [suggest_stack "ml"] returns ["ml"] when the hardware
    probe reports true and ["ml-cpu"] when it reports false; it has no handler
    around the probe, so when the call of the probe raises, the exception
    reaches the caller of [suggest_stack]. The state is left as it was. *)
Theorem suggest_stack_ml (st : state) :
  suggest_stack "ml" st =
  (match probe st with
   | Ok true => Ok "ml"
   | Ok false => Ok "ml-cpu"
   | Raise e => Raise e
   end, st).
Proof.
  unfold suggest_stack, bind, has_nvidia_gpu. simpl.
  destruct (probe st) as [[|]|e]; reflexivity.
Qed.

(** C1, as stated, fails: with a probe that raises, [suggest_stack "ml"]
    raises the probe's exception and does not return ["ml-cpu"]. *)
Lemma suggest_stack_probe_raises :
  suggest_stack "ml" (init "stacks.json" Absent (Raise (Exception "probe failed")))
  = (Raise (Exception "probe failed"),
     init "stacks.json" Absent (Raise (Exception "probe failed")))
  /\ ~ (forall st e, probe st = Raise e -> fst (suggest_stack "ml" st) = Ok "ml-cpu").
Proof.
  split; [reflexivity|].
  intros H.
  specialize (H (init "stacks.json" Absent (Raise (Exception "probe failed")))
                (Exception "probe failed") eq_refl).
  discriminate H.
Qed.

(** A probe that answers (does not raise) makes [suggest_stack] total. *)
Lemma suggest_stack_total base_stack st gpu :
  probe st = Ok gpu -> is_ok (fst (suggest_stack base_stack st)) = true.
Proof.
  intros H. unfold suggest_stack, bind, has_nvidia_gpu.
  destruct (String.eqb base_stack "ml"); [|reflexivity].
  rewrite H. now destruct gpu.
Qed.

(** C9. For every [x] other than ["ml"], [suggest_stack x] returns [x]
    and leaves the state as it is, whatever the catalog and the probe are;
    applied to its own result it returns it again. For every input the
    state is left unchanged, and the result depends on the input and the
    answer of the probe only. *)
Theorem suggest_stack_other (x : string) (st : state) (Hx : x <> "ml") :
  suggest_stack x st = (Ok x, st)
  /\ (forall y st', suggest_stack x st = (Ok y, st') -> suggest_stack y st' = (Ok y, st'))
  /\ (forall b s, snd (suggest_stack b s) = s)
  /\ (forall b s1 s2, probe s1 = probe s2 ->
        fst (suggest_stack b s1) = fst (suggest_stack b s2)).
Proof.
  assert (E : forall s, suggest_stack x s = (Ok x, s)).
  { intros s. unfold suggest_stack.
    apply String.eqb_neq in Hx. now rewrite Hx. }
  repeat split.
  - apply E.
  - intros y st' H. rewrite E in H. inversion H; subst. apply E.
  - intros b s. apply readonly_suggest_stack.
  - intros b s1 s2 H. unfold suggest_stack, bind, has_nvidia_gpu.
    destruct (String.eqb b "ml"); [|reflexivity].
    rewrite H. destruct (probe s2) as [[|]|e]; reflexivity.
Qed.

Lemma suggest_stack_other_witness :
  suggest_stack "webdev" (init "stacks.json" Absent (Raise (Exception "probe failed")))
  = (Ok "webdev", init "stacks.json" Absent (Raise (Exception "probe failed"))).
Proof.
  apply (suggest_stack_other "webdev"). discriminate.
Defined.

(** ** Errors and caching of the load *)




(** C3, as amended. After a load that returned a value other than [None],
    every later call of [load_stacks] returns that value and leaves the
    state as it is (the file is not opened again), whatever calls were made
    in between and even if the file has changed; no call, returning or
    raising, changes the state, of which the cached catalog is a part. *)
Theorem load_stacks_cached (repr : pyval -> string) (st st1 : state) (v : pyval)
  (Hload : load_stacks st = (Ok v, st1)) (Hv : v <> PNone) :
  (forall ops, load_stacks (run_ops repr ops st1) = (Ok v, st1))
  /\ (forall f, load_stacks (set_disk f st1) = (Ok v, set_disk f st1))
  /\ (forall o, run_op repr o st1 = st1).
Proof.
  pose proof (load_stacks_stores _ _ _ Hload Hv) as Hs.
  assert (Hn : Py.is_None (_stacks st1) = false).
  { rewrite Hs. now apply is_None_false. }
  repeat split.
  - intros ops. rewrite (run_ops_loaded repr ops st1 Hn).
    rewrite (load_stacks_hit st1 Hn). now rewrite Hs.
  - intros f. rewrite load_stacks_hit; simpl; [now rewrite Hs|exact Hn].
  - intros o. now apply run_op_loaded.
Qed.

Lemma load_stacks_cached_witness :
  load_stacks
    (run_ops (fun _ => "") [OpFind "ml"; OpLoad; OpDescribe "x"]
       (mkState "stacks.json" (Json (PDict [])) (Ok false) (PDict []) 1))
  = (Ok (PDict []), mkState "stacks.json" (Json (PDict [])) (Ok false) (PDict []) 1).
Proof.
  apply (load_stacks_cached (fun _ => "") (init "stacks.json" (Json (PDict [])) (Ok false))).
  - reflexivity.
  - discriminate.
Defined.

(** C3, as stated, fails: a file holding the JSON document [null] loads
    (the call returns [None]), and the next call opens the file again; when
    the file has changed in between, it returns another value. *)
Lemma load_stacks_null_reread :
  load_stacks (init "stacks.json" (Json PNone) (Ok false))
  = (Ok PNone, mkState "stacks.json" (Json PNone) (Ok false) PNone 1)
  /\ load_stacks (mkState "stacks.json" (Json PNone) (Ok false) PNone 1)
     = (Ok PNone, mkState "stacks.json" (Json PNone) (Ok false) PNone 2)
  /\ load_stacks (set_disk (Json (PDict []))
                    (mkState "stacks.json" (Json PNone) (Ok false) PNone 1))
     = (Ok (PDict []), mkState "stacks.json" (Json (PDict [])) (Ok false) (PDict []) 2)
  /\ ~ (forall st v st1, load_stacks st = (Ok v, st1) -> load_stacks st1 = (Ok v, st1)).
Proof.
  repeat split.
  intros H.
  specialize (H (init "stacks.json" (Json PNone) (Ok false)) PNone _ eq_refl).
  discriminate H.
Qed.



(** ** Listing and lookup *)

Lemma eq_str_true v s : Py.eq_str v s = true <-> v = PStr s.
Proof.
  destruct v; simpl; try (split; [discriminate|intros H; discriminate H]).
  rewrite String.eqb_eq. split; intros H; [now subst|now inversion H].
Qed.

(** An entry with an [id] that is not [stack_id] is one the scan walks past. *)
Lemma other_id_intro stack_id entry :
  Schema.has_id entry = true ->
  Py.getitem entry "id" <> Ok (PStr stack_id) ->
  Schema.other_id stack_id entry = true.
Proof.
  unfold Schema.has_id, Schema.other_id.
  destruct (Py.getitem entry "id") as [v|e]; simpl; [|discriminate].
  intros _ H. destruct (Py.eq_str v stack_id) eqn:E; [|reflexivity].
  apply eq_str_true in E. subst v. now elim H.
Qed.

Lemma other_id_all stack_id entries :
  forallb Schema.has_id entries = true ->
  Forall (fun e => Py.getitem e "id" <> Ok (PStr stack_id)) entries ->
  forallb (Schema.other_id stack_id) entries = true.
Proof.
  induction entries as [|e entries IH]; simpl; [reflexivity|].
  intros Hid Hall. apply andb_true_iff in Hid as [H1 H2].
  inversion Hall; subst.
  rewrite other_id_intro; auto.
Qed.

(** The loop walks past a prefix of entries with other ids. *)
Lemma find_stack_loop_skip stack_id pre rest :
  forallb (Schema.other_id stack_id) pre = true ->
  find_stack_loop (pre ++ rest) stack_id = find_stack_loop rest stack_id.
Proof.
  induction pre as [|e pre IH]; simpl; [reflexivity|].
  intros H. apply andb_true_iff in H as [H1 H2].
  unfold Schema.other_id in H1.
  destruct (Py.getitem e "id") as [v|x]; [|discriminate].
  apply negb_true_iff in H1. rewrite H1. now apply IH.
Qed.

Lemma find_stack_loop_none stack_id entries :
  forallb (Schema.other_id stack_id) entries = true ->
  find_stack_loop entries stack_id = Ok PNone.
Proof.
  intros H. rewrite <- (app_nil_r entries).
  now rewrite find_stack_loop_skip.
Qed.

Lemma find_stack_loop_hit stack_id pre stack post :
  forallb (Schema.other_id stack_id) pre = true ->
  Py.getitem stack "id" = Ok (PStr stack_id) ->
  find_stack_loop (pre ++ stack :: post) stack_id = Ok stack.
Proof.
  intros Hpre Hid. rewrite find_stack_loop_skip by exact Hpre.
  simpl. rewrite Hid. simpl. now rewrite String.eqb_refl.
Qed.

Lemma find_stack_loop_no_id stack_id pre d post :
  forallb (Schema.other_id stack_id) pre = true ->
  Py.lookup d "id" = None ->
  find_stack_loop (pre ++ PDict d :: post) stack_id = Raise (KeyError "id").
Proof.
  intros Hpre Hid. rewrite find_stack_loop_skip by exact Hpre.
  simpl. now rewrite Hid.
Qed.

(** What the loop returns is [None] or an entry with the [id] asked for,
    and such an entry is a non-empty dict, so it is true in a test. *)
Lemma find_stack_loop_found stack_id entries stack :
  find_stack_loop entries stack_id = Ok stack ->
  stack = PNone \/ (Py.getitem stack "id" = Ok (PStr stack_id) /\ Py.truthy stack = true).
Proof.
  induction entries as [|e entries IH]; simpl.
  - intros H. inversion H. now left.
  - destruct (Py.getitem e "id") as [v|x] eqn:E; [|discriminate].
    destruct (Py.eq_str v stack_id) eqn:Ev; [|exact IH].
    intros H. inversion H; subst. right.
    apply eq_str_true in Ev. subst v. split; [exact E|].
    destruct stack; try discriminate. destruct fields; [discriminate|reflexivity].
Qed.

(** The methods on a manager whose load returns the dict [cat]. *)
Lemma list_stacks_run st cat :
  fst (load_stacks st) = Ok (PDict cat) ->
  list_stacks st = (Py.get (PDict cat) "stacks" (PList []), snd (load_stacks st)).
Proof.
  intros H. destruct (load_stacks_dict st cat H) as [E _].
  unfold list_stacks. now rewrite (bind_run _ _ _ _ _ E).
Qed.

Lemma find_stack_run st cat stacks stack_id :
  fst (load_stacks st) = Ok (PDict cat) ->
  Py.get (PDict cat) "stacks" (PList []) = Ok (PList stacks) ->
  find_stack stack_id st = (find_stack_loop stacks stack_id, snd (load_stacks st)).
Proof.
  intros H Hs. unfold find_stack.
  rewrite (bind_run _ _ _ _ _ (list_stacks_run st cat H)), Hs.
  reflexivity.
Qed.

(** A document that is not an object loads, and [list_stacks] then fails on
    the [get] it calls on it. *)
Lemma list_stacks_not_object :
  list_stacks (init "stacks.json" (Json (PList [])) (Ok false))
  = (Raise AttributeError,
     mkState "stacks.json" (Json (PList [])) (Ok false) (PList []) 1).
Proof. reflexivity. Qed.

(** C7. On a manager whose load returns a catalog object, [list_stacks]
    returns the value of its [stacks] field: the very sequence of the
    document, in its order, and the empty sequence when the document
    defines none. It loads the catalog when it was not loaded (the file is
    opened once and the catalog is then cached), and once the load has
    succeeded it does not fail and changes nothing. *)
Theorem list_stacks_spec (st : state) (cat : list (string * pyval))
  (Hload : fst (load_stacks st) = Ok (PDict cat)) :
  (forall stacks, Py.lookup cat "stacks" = Some stacks ->
     list_stacks st = (Ok stacks, snd (load_stacks st)))
  /\ (Py.lookup cat "stacks" = None ->
        list_stacks st = (Ok (PList []), snd (load_stacks st)))
  /\ _stacks (snd (list_stacks st)) = PDict cat
  /\ (_stacks st = PNone -> opens (snd (list_stacks st)) = S (opens st))
  /\ (exists stacks, list_stacks (snd (load_stacks st)) = (Ok stacks, snd (load_stacks st))).
Proof.
  pose proof (list_stacks_run st cat Hload) as E.
  destruct (load_stacks_dict st cat Hload) as [El Hs].
  repeat split.
  - intros stacks H. rewrite E. simpl. now rewrite H.
  - intros H. rewrite E. simpl. now rewrite H.
  - rewrite E. exact Hs.
  - intros Hn. rewrite E. simpl.
    rewrite load_stacks_cases, Hn in *. simpl in *.
    destruct (disk st); try discriminate. reflexivity.
  - assert (Hn : Py.is_None (_stacks (snd (load_stacks st))) = false) by now rewrite Hs.
    assert (H1 : fst (load_stacks (snd (load_stacks st))) = Ok (PDict cat)).
    { rewrite (load_stacks_hit _ Hn). simpl. now rewrite Hs. }
    rewrite (list_stacks_run _ cat H1).
    rewrite (load_stacks_hit _ Hn). simpl.
    destruct (Py.lookup cat "stacks"); eexists; reflexivity.
Qed.

(** C5. On a loaded catalog whose entries all carry an [id],
    [find_stack stack_id] returns [None] when no entry has exactly that
    [id], and otherwise the first entry, in the order of the document, whose
    [id] is exactly [stack_id]. *)
Theorem find_stack_spec (st : state) (cat : list (string * pyval))
  (stacks : list pyval) (stack_id : string)
  (Hload : fst (load_stacks st) = Ok (PDict cat))
  (Hstacks : Py.get (PDict cat) "stacks" (PList []) = Ok (PList stacks))
  (Hids : forallb Schema.has_id stacks = true) :
  (Forall (fun e => Py.getitem e "id" <> Ok (PStr stack_id)) stacks ->
     find_stack stack_id st = (Ok PNone, snd (load_stacks st)))
  /\ (forall pre stack post,
        stacks = (pre ++ stack :: post)%list ->
        Forall (fun e => Py.getitem e "id" <> Ok (PStr stack_id)) pre ->
        Py.getitem stack "id" = Ok (PStr stack_id) ->
        find_stack stack_id st = (Ok stack, snd (load_stacks st)))
  /\ (exists r, find_stack stack_id st = (Ok r, snd (load_stacks st))
        /\ (r = PNone \/ (In r stacks /\ Py.getitem r "id" = Ok (PStr stack_id)))).
Proof.
  rewrite (find_stack_run st cat stacks stack_id Hload Hstacks).
  repeat split.
  - intros Hall. now rewrite find_stack_loop_none by now apply other_id_all.
  - intros pre stack post -> Hpre Hid.
    rewrite forallb_app in Hids. apply andb_true_iff in Hids as [H1 _].
    now rewrite find_stack_loop_hit by (auto using other_id_all).
  - clear Hstacks Hload.
    induction stacks as [|e stacks IH]; simpl.
    + exists PNone. split; [reflexivity|now left].
    + simpl in Hids. apply andb_true_iff in Hids as [H1 H2].
      unfold Schema.has_id in H1.
      destruct (Py.getitem e "id") as [v|x] eqn:E; [|discriminate].
      destruct (Py.eq_str v stack_id) eqn:Ev.
      * exists e. split; [reflexivity|right]. apply eq_str_true in Ev. subst v.
        split; [now left|exact E].
      * destruct (IH H2) as [r [Hr Hcase]]. exists r. split.
        -- inversion Hr. reflexivity.
        -- destruct Hcase as [?|[? ?]]; [now left|right; split; [now right|assumption]].
Qed.

Lemma get_stack_packages_run st stack_id r st1 :
  find_stack stack_id st = (r, st1) ->
  get_stack_packages stack_id st =
  (match r with
   | Ok stack =>
       if Py.truthy stack then Py.get stack "packages" (PList []) else Ok (PList [])
   | Raise e => Raise e
   end, st1).
Proof.
  intros H. unfold get_stack_packages. rewrite (bind_run _ _ _ _ _ H).
  destruct r as [stack|e]; [|reflexivity].
  now destruct (Py.truthy stack).
Qed.

(** C6. On a loaded catalog whose entries all carry an [id],
    [get_stack_packages stack_id] returns the empty sequence, and does not
    raise, when no entry has that [id]; when one has, it returns the
    [packages] of that stack (of the first such entry; the empty sequence
    when the stack has no [packages] field). *)
Theorem get_stack_packages_spec (st : state) (cat : list (string * pyval))
  (stacks : list pyval) (stack_id : string)
  (Hload : fst (load_stacks st) = Ok (PDict cat))
  (Hstacks : Py.get (PDict cat) "stacks" (PList []) = Ok (PList stacks))
  (Hids : forallb Schema.has_id stacks = true) :
  (Forall (fun e => Py.getitem e "id" <> Ok (PStr stack_id)) stacks ->
     get_stack_packages stack_id st = (Ok (PList []), snd (load_stacks st)))
  /\ (forall pre d post,
        stacks = (pre ++ PDict d :: post)%list ->
        Forall (fun e => Py.getitem e "id" <> Ok (PStr stack_id)) pre ->
        Py.lookup d "id" = Some (PStr stack_id) ->
        get_stack_packages stack_id st =
        (Ok (match Py.lookup d "packages" with Some p => p | None => PList [] end),
         snd (load_stacks st))).
Proof.
  pose proof (find_stack_run st cat stacks stack_id Hload Hstacks) as E.
  split.
  - intros Hall.
    rewrite find_stack_loop_none in E by now apply other_id_all.
    now rewrite (get_stack_packages_run _ _ _ _ E).
  - intros pre d post -> Hpre Hid.
    rewrite forallb_app in Hids. apply andb_true_iff in Hids as [H1 _].
    rewrite find_stack_loop_hit in E; [|now apply other_id_all|simpl; now rewrite Hid].
    rewrite (get_stack_packages_run _ _ _ _ E).
    destruct d as [|b d]; [discriminate Hid|].
    cbn [Py.truthy Py.get].
    now destruct (Py.lookup (b :: d) "packages").
Qed.

(** ** An entry without [id] *)

(** C10. When the scan for [stack_id] reaches an entry that has no [id]
    field (the entries before it have other ids), [find_stack] raises
    [KeyError] for the key [id], and so do [get_stack_packages] and
    [describe_stack], which call it: the entry is neither skipped nor
    reported as not found. *)
Theorem find_stack_missing_id (repr : pyval -> string) (st : state)
  (cat : list (string * pyval)) (pre post : list pyval)
  (d : list (string * pyval)) (stack_id : string)
  (Hload : fst (load_stacks st) = Ok (PDict cat))
  (Hstacks : Py.get (PDict cat) "stacks" (PList []) = Ok (PList (pre ++ PDict d :: post)))
  (Hpre : forallb (Schema.other_id stack_id) pre = true)
  (Hno : Py.lookup d "id" = None) :
  find_stack stack_id st = (Raise (KeyError "id"), snd (load_stacks st))
  /\ get_stack_packages stack_id st = (Raise (KeyError "id"), snd (load_stacks st))
  /\ describe_stack repr stack_id st = (Raise (KeyError "id"), snd (load_stacks st)).
Proof.
  pose proof (find_stack_run st cat _ stack_id Hload Hstacks) as E.
  rewrite (find_stack_loop_no_id stack_id pre d post Hpre Hno) in E.
  repeat split.
  - exact E.
  - now rewrite (get_stack_packages_run _ _ _ _ E).
  - unfold describe_stack. now rewrite (bind_run _ _ _ _ _ E).
Qed.

(** ** The summary *)

Lemma append_assoc (a b c : string) : (a ++ b) ++ c = a ++ b ++ c.
Proof. induction a as [|x a IH]; simpl; [reflexivity|now rewrite IH]. Qed.

Lemma as_strs_map ss : Py.as_strs (map PStr ss) = Ok ss.
Proof. induction ss as [|s ss IH]; simpl; [reflexivity|now rewrite IH]. Qed.

Lemma as_strs_inv l ss : Py.as_strs l = Ok ss -> l = map PStr ss.
Proof.
  revert ss. induction l as [|v l IH]; simpl; intros ss H.
  - inversion H. reflexivity.
  - destruct v; try discriminate.
    destruct (Py.as_strs l) as [ss'|e]; [|discriminate].
    inversion H; subst. simpl. now rewrite (IH ss').
Qed.

(** An optional field read as strings is the list of those strings, the
    default of [get] when the field is absent. *)
Lemma read_strs_inv o ss :
  Schema.read_strs o = Some ss ->
  match o with Some x => x | None => PList [] end = PList (map PStr ss).
Proof.
  destruct o as [v|]; simpl.
  - destruct v; try discriminate.
    destruct (Py.as_strs items) as [ss'|e] eqn:E; [|discriminate].
    intros H. inversion H; subst. now rewrite (as_strs_inv _ _ E).
  - intros H. inversion H. reflexivity.
Qed.

Lemma get_dict d k default :
  Py.get (PDict d) k default = Ok (match Py.lookup d k with Some x => x | None => default end).
Proof. simpl. now destruct (Py.lookup d k). Qed.

(** The loop appends the numbered entries to what is printed so far. *)
Lemma package_lines_numbered repr packages : forall n output,
  package_lines repr (Z.of_nat n) (map PStr packages) output
  = output ++ Schema.numbered n packages.
Proof.
  induction packages as [|p packages IH]; intros n output.
  - simpl. induction output as [|c output IHo]; simpl; [reflexivity|now rewrite <- IHo].
  - cbn [map package_lines Schema.numbered format].
    replace (Z.of_nat n + 1)%Z with (Z.of_nat (S n)) by lia.
    rewrite IH. now rewrite !append_assoc.
Qed.

(** Every package has its entry, numbered by its place, after the entries
    of the packages before it and before those of the packages after it. *)
Lemma numbered_entry n before p after :
  Schema.numbered n (before ++ p :: after)
  = Schema.numbered n before
    ++ ("  " ++ Py.str_of_int (Z.of_nat (n + length before)) ++ ". " ++ p ++ nl)
    ++ Schema.numbered (S (n + length before)) after.
Proof.
  revert n. induction before as [|q before IH]; intros n.
  - cbn [app length Schema.numbered]. rewrite Nat.add_0_r.
    rewrite !append_assoc. reflexivity.
  - cbn [app length Schema.numbered]. rewrite IH.
    replace (S n + length before)%nat with (n + S (length before))%nat by lia.
    now rewrite !append_assoc.
Qed.

Lemma truthy_strs ss :
  Py.truthy (PList (map PStr ss)) = match ss with [] => false | _ :: _ => true end.
Proof. now destruct ss. Qed.

Lemma join_strs sep ss : Py.join sep (PList (map PStr ss)) = Ok (String.concat sep ss).
Proof. unfold Py.join. simpl. now rewrite as_strs_map. Qed.

(** [describe_stack] on a stack whose fields read as strings. *)
Lemma describe_stack_found repr st stack_id stack st1 f :
  find_stack stack_id st = (Ok stack, st1) ->
  Schema.read_fields stack = Some f ->
  describe_stack repr stack_id st = (Ok (Schema.summary f), st1).
Proof.
  intros Hfind Hread.
  destruct stack as [| | | | | |d]; try discriminate.
  unfold Schema.read_fields in Hread.
  destruct (Py.lookup d "name") as [[| | | |name| |]|] eqn:En; try discriminate.
  destruct (Py.lookup d "description") as [[| | | |description| |]|] eqn:Ed; try discriminate.
  destruct (Schema.read_strs (Py.lookup d "packages")) as [packages|] eqn:Ep; try discriminate.
  destruct (Schema.read_strs (Py.lookup d "tags")) as [tags|] eqn:Et; try discriminate.
  apply read_strs_inv in Ep, Et.
  assert (Ht : Py.truthy (PDict d) = true).
  { destruct d; [discriminate En|reflexivity]. }
  unfold describe_stack. rewrite (bind_run _ _ _ _ _ Hfind). rewrite Ht.
  cbn [negb]. unfold bind, lift, ret.
  rewrite !get_dict. cbn [Py.getitem]. rewrite En, Ed, Ep, Et.
  cbn [Py.iter format].
  change 1%Z with (Z.of_nat 1). rewrite package_lines_numbered.
  rewrite truthy_strs, join_strs.
  destruct (Py.lookup d "hardware") as [[| | | |h| |]|] eqn:Eh; try discriminate;
    inversion Hread; subst f; unfold Schema.summary; cbn [Schema.f_name
      Schema.f_description Schema.f_packages Schema.f_tags Schema.f_hardware format];
    destruct tags as [|t tags]; cbn [Schema.tags_line Schema.hardware_line];
    rewrite !append_assoc; reflexivity.
Qed.

Lemma describe_stack_not_found repr st stack_id st1 :
  find_stack stack_id st = (Ok PNone, st1) ->
  describe_stack repr stack_id st = (Ok (Schema.not_found stack_id), st1).
Proof.
  intros Hfind. unfold describe_stack. now rewrite (bind_run _ _ _ _ _ Hfind).
Qed.

(** C8. For a stack that [find_stack] has found and whose fields read as
    strings, [describe_stack] returns the summary: a line with the name, a
    line with the description, the packages as numbered entries, in their
    order and counted from 1 (for [nginx], [nodejs]: [1. nginx] then
    [2. nodejs]), a tags line only when there are tags, and a hardware line
    that says [any] when the stack has no hardware field. When
    [find_stack] has found nothing it returns the not-found message. *)
Theorem describe_stack_spec (repr : pyval -> string) (st st1 : state)
  (stack_id : string) (stack : pyval)
  (Hfind : find_stack stack_id st = (Ok stack, st1)) :
  (forall f, Schema.read_fields stack = Some f ->
     describe_stack repr stack_id st = (Ok (Schema.summary f), st1))
  /\ (stack = PNone ->
        describe_stack repr stack_id st = (Ok ("Stack '" ++ stack_id ++ "' not found"), st1)).
Proof.
  split.
  - intros f Hf. now apply describe_stack_found with (stack := stack).
  - intros ->. now apply describe_stack_not_found.
Qed.

(** ** The methods on the example catalog *)

Lemma list_stacks_spec_witness :
  fst (load_stacks (Example.fresh Example.catalog)) = Ok (PDict Example.catalog)
  /\ list_stacks (Example.fresh Example.catalog)
     = (Ok (PList [Example.ml; Example.ml_cpu; Example.webdev]),
        Example.loaded Example.catalog).
Proof.
  split; [reflexivity|].
  apply (list_stacks_spec (Example.fresh Example.catalog) Example.catalog eq_refl).
  reflexivity.
Defined.

Lemma find_stack_spec_witness :
  find_stack "ml-cpu" (Example.fresh Example.catalog)
  = (Ok Example.ml_cpu, Example.loaded Example.catalog)
  /\ find_stack "ML" (Example.fresh Example.catalog)
     = (Ok PNone, Example.loaded Example.catalog)
  /\ find_stack "" (Example.fresh Example.catalog)
     = (Ok PNone, Example.loaded Example.catalog).
Proof.
  split; [|split].
  - apply (find_stack_spec (Example.fresh Example.catalog) Example.catalog
             [Example.ml; Example.ml_cpu; Example.webdev] "ml-cpu"
             eq_refl eq_refl eq_refl)
      with (pre := [Example.ml]) (post := [Example.webdev]).
    + reflexivity.
    + repeat constructor. discriminate.
    + reflexivity.
  - apply (find_stack_spec (Example.fresh Example.catalog) Example.catalog
             [Example.ml; Example.ml_cpu; Example.webdev] "ML"
             eq_refl eq_refl eq_refl).
    repeat constructor; discriminate.
  - apply (find_stack_spec (Example.fresh Example.catalog) Example.catalog
             [Example.ml; Example.ml_cpu; Example.webdev] ""
             eq_refl eq_refl eq_refl).
    repeat constructor; discriminate.
Defined.

Lemma get_stack_packages_spec_witness :
  get_stack_packages "nonexistent" (Example.fresh Example.catalog)
  = (Ok (PList []), Example.loaded Example.catalog)
  /\ get_stack_packages "ml-cpu" (Example.fresh Example.catalog)
     = (Ok (PList [PStr "numpy"]), Example.loaded Example.catalog).
Proof.
  split.
  - apply (get_stack_packages_spec (Example.fresh Example.catalog) Example.catalog
             [Example.ml; Example.ml_cpu; Example.webdev] "nonexistent"
             eq_refl eq_refl eq_refl).
    repeat constructor; discriminate.
  - apply (get_stack_packages_spec (Example.fresh Example.catalog) Example.catalog
             [Example.ml; Example.ml_cpu; Example.webdev] "ml-cpu"
             eq_refl eq_refl eq_refl)
      with (pre := [Example.ml]) (post := [Example.webdev])
           (d := [("id", PStr "ml-cpu"); ("name", PStr "ML Stack (CPU)");
                  ("description", PStr "d"); ("packages", PList [PStr "numpy"])]).
    + reflexivity.
    + repeat constructor. discriminate.
    + reflexivity.
Defined.

Lemma find_stack_missing_id_witness :
  find_stack "webdev" (Example.fresh Example.broken_catalog)
  = (Raise (KeyError "id"), Example.loaded Example.broken_catalog)
  /\ get_stack_packages "webdev" (Example.fresh Example.broken_catalog)
     = (Raise (KeyError "id"), Example.loaded Example.broken_catalog)
  /\ describe_stack (fun _ => "") "webdev" (Example.fresh Example.broken_catalog)
     = (Raise (KeyError "id"), Example.loaded Example.broken_catalog).
Proof.
  apply (find_stack_missing_id (fun _ => "") (Example.fresh Example.broken_catalog)
           Example.broken_catalog [Example.ml] [Example.webdev]
           [("name", PStr "Nameless"); ("packages", PList [PStr "vim"])] "webdev");
    reflexivity.
Defined.

Lemma describe_stack_spec_witness :
  describe_stack (fun _ => "") "webdev" (Example.fresh Example.catalog)
  = (Ok (nl ++ package_emoji ++ " Stack: Web Development" ++ nl
         ++ "Description: Web server and runtime" ++ nl ++ nl
         ++ "Packages included:" ++ nl
         ++ "  1. nginx" ++ nl
         ++ "  2. nodejs" ++ nl
         ++ "Hardware: any" ++ nl),
     Example.loaded Example.catalog)
  /\ describe_stack (fun _ => "") "Webdev" (Example.fresh Example.catalog)
     = (Ok "Stack 'Webdev' not found", Example.loaded Example.catalog).
Proof.
  split.
  - apply (describe_stack_spec (fun _ => "") (Example.fresh Example.catalog)
             (Example.loaded Example.catalog) "webdev" Example.webdev eq_refl
             : _ /\ _)
      with (f := Schema.mkFields "Web Development" "Web server and runtime"
                   ["nginx"; "nodejs"] [] None).
    reflexivity.
  - apply (describe_stack_spec (fun _ => "") (Example.fresh Example.catalog)
             (Example.loaded Example.catalog) "Webdev" PNone eq_refl).
    reflexivity.
Defined.

(** ** More on the catalog methods *)

(** A continuation that only computes leaves the state to what comes first. *)
Lemma bind_state {A B} (m : M A) (k : A -> M B) st :
  (forall a s, readonly (k a) s) -> snd (bind m k st) = snd (m st).
Proof.
  intros Hk. unfold bind. destruct (m st) as [[a|e] st']; simpl; [apply Hk|reflexivity].
Qed.

Lemma state_after_list_stacks st : snd (list_stacks st) = snd (load_stacks st).
Proof. unfold list_stacks. apply bind_state. auto with readonly. Qed.

Lemma state_after_find_stack stack_id st :
  snd (find_stack stack_id st) = snd (load_stacks st).
Proof.
  unfold find_stack. rewrite bind_state; [apply state_after_list_stacks|].
  intros a s. apply readonly_bind; auto with readonly.
Qed.

Lemma state_after_get_stack_packages stack_id st :
  snd (get_stack_packages stack_id st) = snd (load_stacks st).
Proof.
  unfold get_stack_packages. rewrite bind_state; [apply state_after_find_stack|].
  auto with readonly.
Qed.

Lemma state_after_describe_stack repr stack_id st :
  snd (describe_stack repr stack_id st) = snd (load_stacks st).
Proof.
  unfold describe_stack. rewrite bind_state; [apply state_after_find_stack|].
  intros stack s.
  apply readonly_if; [apply readonly_ret|].
  repeat (apply readonly_bind; [auto with readonly|intros]).
  - apply readonly_if; [|apply readonly_ret].
    apply readonly_bind; auto with readonly.
  - repeat (apply readonly_bind; [auto with readonly|intros]).
    apply readonly_ret.
Qed.

(** The state a call leaves is the one the load leaves, or the same state
    for [suggest_stack]. *)
Lemma run_op_state repr o st :
  run_op repr o st = snd (load_stacks st) \/ run_op repr o st = st.
Proof.
  destruct o; simpl.
  - now left.
  - left. apply state_after_list_stacks.
  - left. apply state_after_find_stack.
  - left. apply state_after_get_stack_packages.
  - right. apply readonly_suggest_stack.
  - left. apply state_after_describe_stack.
Qed.

(** What a load keeps: the file and the path, and a cache that is empty or
    holds the document of the file. *)
Lemma load_stacks_coherent st :
  (_stacks st = PNone \/ disk st = Json (_stacks st)) ->
  let st' := snd (load_stacks st) in
  disk st' = disk st
  /\ (_stacks st' = PNone \/ disk st' = Json (_stacks st')).
Proof.
  intros H. rewrite load_stacks_cases.
  destruct (Py.is_None (_stacks st)) eqn:E; simpl.
  - apply is_None_true in E.
    destruct (disk st) eqn:D; simpl; rewrite ?D; (split; [reflexivity|]);
      [now left|now left|now right].
  - split; [reflexivity|exact H].
Qed.

Lemma run_ops_coherent repr ops : forall st,
  (_stacks st = PNone \/ disk st = Json (_stacks st)) ->
  let st' := run_ops repr ops st in
  disk st' = disk st
  /\ (_stacks st' = PNone \/ disk st' = Json (_stacks st')).
Proof.
  unfold run_ops. induction ops as [|o ops IH]; intros st H; simpl.
  - split; [reflexivity|exact H].
  - assert (Ho : disk (run_op repr o st) = disk st
                 /\ (_stacks (run_op repr o st) = PNone
                     \/ disk (run_op repr o st) = Json (_stacks (run_op repr o st)))).
    { destruct (run_op_state repr o st) as [E|E]; rewrite E.
      - now apply load_stacks_coherent.
      - split; [reflexivity|exact H]. }
    destruct Ho as [Hd Hc]. destruct (IH _ Hc) as [Hd' Hc'].
    split; [now rewrite Hd', Hd|exact Hc'].
Qed.

(** X1. Whatever calls are made on a new manager, in whatever order and
    whether they return or raise, the file is left as it is and the cached
    catalog is either still [None] or the very document of the file. *)
Theorem run_coherent (repr : pyval -> string) (path : string) (f : file)
  (p : result bool) (ops : list op) :
  disk (run_ops repr ops (init path f p)) = f
  /\ (_stacks (run_ops repr ops (init path f p)) = PNone
      \/ f = Json (_stacks (run_ops repr ops (init path f p)))).
Proof.
  destruct (run_ops_coherent repr ops (init path f p)) as [Hd Hc]; [now left|].
  split; [exact Hd|]. destruct Hc as [Hc|Hc]; [now left|right].
  now rewrite <- Hc, Hd.
Qed.




(** X3. An error of the load is not swallowed by the methods that need the
    catalog: [list_stacks], [find_stack], [get_stack_packages] and
    [describe_stack] raise the very exception [load_stacks] raises, and
    nothing is cached. *)
Theorem load_error_propagates (repr : pyval -> string) (st : state)
  (stack_id : string) (e : exn)
  (Hload : fst (load_stacks st) = Raise e) :
  list_stacks st = (Raise e, snd (load_stacks st))
  /\ find_stack stack_id st = (Raise e, snd (load_stacks st))
  /\ get_stack_packages stack_id st = (Raise e, snd (load_stacks st))
  /\ describe_stack repr stack_id st = (Raise e, snd (load_stacks st))
  /\ _stacks (snd (load_stacks st)) = PNone.
Proof.
  assert (E : load_stacks st = (Raise e, snd (load_stacks st))).
  { rewrite <- Hload. apply surjective_pairing. }
  assert (El : list_stacks st = (Raise e, snd (load_stacks st))).
  { unfold list_stacks. now rewrite (bind_run _ _ _ _ _ E). }
  assert (Ef : find_stack stack_id st = (Raise e, snd (load_stacks st))).
  { unfold find_stack. now rewrite (bind_run _ _ _ _ _ El). }
  split; [exact El|]. split; [exact Ef|]. split; [|split].
  - now rewrite (get_stack_packages_run _ _ _ _ Ef).
  - unfold describe_stack. now rewrite (bind_run _ _ _ _ _ Ef).
  - clear E El Ef. rewrite load_stacks_cases in *.
    destruct (Py.is_None (_stacks st)) eqn:En; [|discriminate Hload].
    apply is_None_true in En.
    destruct (disk st); simpl in *; try discriminate; exact En.
Qed.

Lemma load_error_propagates_witness :
  describe_stack (fun _ => "") "ml" (init "cortex/stacks.json" NotJson (Ok true))
  = (Raise (ValueError "Invalid JSON in cortex/stacks.json"),
     mkState "cortex/stacks.json" NotJson (Ok true) PNone 1).
Proof.
  apply (load_error_propagates (fun _ => "")
           (init "cortex/stacks.json" NotJson (Ok true)) "ml"
           (ValueError "Invalid JSON in cortex/stacks.json") eq_refl).
Defined.



(** X5. A JSON document that is not an object loads, and then every
    method that needs the catalog fails on the [get] called on it:
    [list_stacks], [find_stack], [get_stack_packages] and [describe_stack]
    raise [AttributeError]. *)
Theorem not_object_document (repr : pyval -> string) (st : state) (doc : pyval)
  (stack_id : string)
  (Hload : fst (load_stacks st) = Ok doc)
  (Hdoc : forall d, doc <> PDict d) :
  list_stacks st = (Raise AttributeError, snd (load_stacks st))
  /\ find_stack stack_id st = (Raise AttributeError, snd (load_stacks st))
  /\ get_stack_packages stack_id st = (Raise AttributeError, snd (load_stacks st))
  /\ describe_stack repr stack_id st = (Raise AttributeError, snd (load_stacks st)).
Proof.
  assert (E : load_stacks st = (Ok doc, snd (load_stacks st))).
  { rewrite <- Hload. apply surjective_pairing. }
  assert (El : list_stacks st = (Raise AttributeError, snd (load_stacks st))).
  { unfold list_stacks. rewrite (bind_run _ _ _ _ _ E).
    destruct doc; try reflexivity. now elim (Hdoc fields). }
  assert (Ef : find_stack stack_id st = (Raise AttributeError, snd (load_stacks st))).
  { unfold find_stack. now rewrite (bind_run _ _ _ _ _ El). }
  split; [exact El|]. split; [exact Ef|]. split.
  - now rewrite (get_stack_packages_run _ _ _ _ Ef).
  - unfold describe_stack. now rewrite (bind_run _ _ _ _ _ Ef).
Qed.

Lemma not_object_document_witness :
  find_stack "ml" (init "cortex/stacks.json" (Json (PList [Example.ml])) (Ok true))
  = (Raise AttributeError,
     mkState "cortex/stacks.json" (Json (PList [Example.ml])) (Ok true)
             (PList [Example.ml]) 1).
Proof.
  apply (not_object_document (fun _ => "")
           (init "cortex/stacks.json" (Json (PList [Example.ml])) (Ok true))
           (PList [Example.ml]) "ml" eq_refl).
  intros d. discriminate.
Defined.

Lemma find_stack_loop_not_object stack_id pre entry post :
  forallb (Schema.other_id stack_id) pre = true ->
  (forall d, entry <> PDict d) ->
  find_stack_loop (pre ++ entry :: post) stack_id = Raise TypeError.
Proof.
  intros Hpre He. rewrite find_stack_loop_skip by exact Hpre.
  destruct entry; try reflexivity. now elim (He fields).
Qed.

(** X6. When the scan for [stack_id] reaches an entry that is not an object
    (a string, a number, a list, [null]), [find_stack] raises [TypeError],
    and so do [get_stack_packages] and [describe_stack]; the entries behind
    it are not looked at. *)
Theorem entry_not_object (repr : pyval -> string) (st : state)
  (cat : list (string * pyval)) (pre post : list pyval) (entry : pyval)
  (stack_id : string)
  (Hload : fst (load_stacks st) = Ok (PDict cat))
  (Hstacks : Py.get (PDict cat) "stacks" (PList []) = Ok (PList (pre ++ entry :: post)))
  (Hpre : forallb (Schema.other_id stack_id) pre = true)
  (Hentry : forall d, entry <> PDict d) :
  find_stack stack_id st = (Raise TypeError, snd (load_stacks st))
  /\ get_stack_packages stack_id st = (Raise TypeError, snd (load_stacks st))
  /\ describe_stack repr stack_id st = (Raise TypeError, snd (load_stacks st)).
Proof.
  pose proof (find_stack_run st cat _ stack_id Hload Hstacks) as E.
  rewrite (find_stack_loop_not_object stack_id pre entry post Hpre Hentry) in E.
  split; [exact E|]. split.
  - now rewrite (get_stack_packages_run _ _ _ _ E).
  - unfold describe_stack. now rewrite (bind_run _ _ _ _ _ E).
Qed.

Lemma entry_not_object_witness :
  find_stack "webdev"
    (Example.fresh [("stacks", PList [Example.ml; PStr "webdev"; Example.webdev])])
  = (Raise TypeError,
     Example.loaded [("stacks", PList [Example.ml; PStr "webdev"; Example.webdev])]).
Proof.
  apply (entry_not_object (fun _ => "")
           (Example.fresh [("stacks", PList [Example.ml; PStr "webdev"; Example.webdev])])
           [("stacks", PList [Example.ml; PStr "webdev"; Example.webdev])]
           [Example.ml] [Example.webdev] (PStr "webdev") "webdev"
           eq_refl eq_refl eq_refl).
  intros d. discriminate.
Defined.

(** X7. A [stacks] field that cannot be iterated ([null], a boolean, a
    number) is listed as it is by [list_stacks], and makes [find_stack],
    [get_stack_packages] and [describe_stack] raise [TypeError]. *)
Theorem stacks_not_iterable (repr : pyval -> string) (st : state)
  (cat : list (string * pyval)) (stacks : pyval) (stack_id : string)
  (Hload : fst (load_stacks st) = Ok (PDict cat))
  (Hstacks : Py.lookup cat "stacks" = Some stacks)
  (Hiter : is_ok (Py.iter stacks) = false) :
  list_stacks st = (Ok stacks, snd (load_stacks st))
  /\ find_stack stack_id st = (Raise TypeError, snd (load_stacks st))
  /\ get_stack_packages stack_id st = (Raise TypeError, snd (load_stacks st))
  /\ describe_stack repr stack_id st = (Raise TypeError, snd (load_stacks st)).
Proof.
  assert (El : list_stacks st = (Ok stacks, snd (load_stacks st))).
  { rewrite (list_stacks_run st cat Hload). simpl. now rewrite Hstacks. }
  assert (Ef : find_stack stack_id st = (Raise TypeError, snd (load_stacks st))).
  { unfold find_stack. rewrite (bind_run _ _ _ _ _ El).
    unfold bind, lift. destruct stacks; try discriminate Hiter; reflexivity. }
  split; [exact El|]. split; [exact Ef|]. split.
  - now rewrite (get_stack_packages_run _ _ _ _ Ef).
  - unfold describe_stack. now rewrite (bind_run _ _ _ _ _ Ef).
Qed.

Lemma stacks_not_iterable_witness :
  find_stack "ml" (Example.fresh [("stacks", PInt 5)])
  = (Raise TypeError, Example.loaded [("stacks", PInt 5)]).
Proof.
  apply (stacks_not_iterable (fun _ => "") (Example.fresh [("stacks", PInt 5)])
           [("stacks", PInt 5)] (PInt 5) "ml" eq_refl eq_refl eq_refl).
Defined.

Lemma find_stack_loop_sound stack_id entries stack :
  find_stack_loop entries stack_id = Ok stack ->
  stack = PNone
  \/ (In stack entries /\ exists d, stack = PDict d /\ Py.lookup d "id" = Some (PStr stack_id)).
Proof.
  induction entries as [|e entries IH]; simpl.
  - intros H. inversion H. now left.
  - destruct (Py.getitem e "id") as [v|x] eqn:E; [|discriminate].
    destruct (Py.eq_str v stack_id) eqn:Ev.
    + intros H. inversion H; subst. right. split; [now left|].
      apply eq_str_true in Ev. subst v.
      destruct stack; try discriminate. exists fields. split; [reflexivity|].
      simpl in E. destruct (Py.lookup fields "id"); inversion E. reflexivity.
    + intros H. destruct (IH H) as [?|[? ?]]; [now left|right; split; [now right|assumption]].
Qed.

(** What [find_stack] returns comes out of its loop over the items of the
    [stacks] value. *)
Lemma find_stack_returns st stack_id r st' :
  find_stack stack_id st = (Ok r, st') ->
  exists stacks items,
    list_stacks st = (Ok stacks, st') /\ Py.iter stacks = Ok items
    /\ find_stack_loop items stack_id = Ok r.
Proof.
  unfold find_stack, bind, lift.
  destruct (list_stacks st) as [[stacks|e] st1] eqn:El; [|discriminate].
  destruct (Py.iter stacks) as [items|e] eqn:Ei; [|discriminate].
  intros H. exists stacks, items.
  assert (st1 = st') by congruence. subst st1.
  repeat split; [exact Ei|congruence].
Qed.

Lemma find_stack_returns_object st st' stack_id r :
  find_stack stack_id st = (Ok r, st') ->
  r = PNone
  \/ (exists d, r = PDict d /\ Py.lookup d "id" = Some (PStr stack_id)
        /\ exists stacks items,
             list_stacks st = (Ok stacks, st') /\ Py.iter stacks = Ok items
             /\ In r items).
Proof.
  intros Hfind.
  destruct (find_stack_returns _ _ _ _ Hfind) as [stacks [items [Hl [Hi Hr]]]].
  destruct (find_stack_loop_sound _ _ _ Hr) as [?|[Hin [d [Hd Hid]]]]; [now left|right].
  exists d. repeat split; try assumption. now exists stacks, items.
Qed.

(** X8. Whatever the document is, what [find_stack] returns without raising
    is [None] or an object that is one of the listed items and whose [id] is
    exactly the string asked for: a stack with another [id], or with an [id]
    that is not a string, is never returned. *)
Theorem find_stack_sound (st st' : state) (stack_id : string) (r : pyval)
  (Hfind : find_stack stack_id st = (Ok r, st')) :
  r = PNone
  \/ (exists d, r = PDict d /\ Py.lookup d "id" = Some (PStr stack_id)
        /\ exists stacks items,
             list_stacks st = (Ok stacks, st') /\ Py.iter stacks = Ok items
             /\ In r items).
Proof.
  destruct (find_stack_returns _ _ _ _ Hfind) as [stacks [items [Hl [Hi Hr]]]].
  destruct (find_stack_loop_sound _ _ _ Hr) as [?|[Hin [d [Hd Hid]]]]; [now left|right].
  exists d. repeat split; try assumption. now exists stacks, items.
Qed.

Lemma find_stack_sound_witness :
  Example.ml_cpu = PNone
  \/ (exists d, Example.ml_cpu = PDict d /\ Py.lookup d "id" = Some (PStr "ml-cpu")
        /\ exists stacks items,
             list_stacks (Example.fresh Example.catalog)
             = (Ok stacks, Example.loaded Example.catalog)
             /\ Py.iter stacks = Ok items /\ In Example.ml_cpu items).
Proof.
  apply (find_stack_sound (Example.fresh Example.catalog)
           (Example.loaded Example.catalog) "ml-cpu" Example.ml_cpu).
  reflexivity.
Defined.

(** X9. [get_stack_packages] adds no failure of its own: it raises exactly
    when [find_stack] raises, the same exception, and returns otherwise,
    whatever the document is. *)
Theorem get_stack_packages_raises (st : state) (stack_id : string) :
  match fst (find_stack stack_id st) with
  | Raise e => fst (get_stack_packages stack_id st) = Raise e
  | Ok _ => is_ok (fst (get_stack_packages stack_id st)) = true
  end.
Proof.
  destruct (find_stack stack_id st) as [[r|e] st'] eqn:E; simpl.
  - rewrite (get_stack_packages_run _ _ _ _ E). simpl.
    destruct (find_stack_returns_object _ _ _ _ E) as [->|[d [-> _]]]; [reflexivity|].
    destruct (Py.truthy (PDict d)); [|reflexivity].
    simpl. now destruct (Py.lookup d "packages").
  - now rewrite (get_stack_packages_run _ _ _ _ E).
Qed.

(** X10. [describe_stack] needs the name and the description of a found
    stack: without [name] it raises [KeyError] for [name], with a name and
    without [description] it raises [KeyError] for [description]. *)
Theorem describe_stack_missing_field (repr : pyval -> string) (st st' : state)
  (stack_id : string) (d : list (string * pyval))
  (Hfind : find_stack stack_id st = (Ok (PDict d), st')) :
  (Py.lookup d "name" = None ->
     describe_stack repr stack_id st = (Raise (KeyError "name"), st'))
  /\ (Py.lookup d "name" <> None -> Py.lookup d "description" = None ->
        describe_stack repr stack_id st = (Raise (KeyError "description"), st')).
Proof.
  assert (Ht : Py.truthy (PDict d) = true).
  { destruct (find_stack_returns_object _ _ _ _ Hfind) as [H|[d' [H [Hid _]]]]; [discriminate|].
    inversion H; subst d'. destruct d; [discriminate Hid|reflexivity]. }
  unfold describe_stack. rewrite (bind_run _ _ _ _ _ Hfind), Ht.
  cbn [negb]. unfold bind, lift. cbn [Py.getitem]. split.
  - intros Hn. now rewrite Hn.
  - intros Hn Hd. destruct (Py.lookup d "name"); [|now elim Hn]. now rewrite Hd.
Qed.

Lemma describe_stack_missing_field_witness :
  describe_stack (fun _ => "") "bare" (Example.fresh [("stacks", PList [PDict [("id", PStr "bare")]])])
  = (Raise (KeyError "name"),
     Example.loaded [("stacks", PList [PDict [("id", PStr "bare")]])]).
Proof.
  apply (describe_stack_missing_field (fun _ => "")
           (Example.fresh [("stacks", PList [PDict [("id", PStr "bare")]])])
           (Example.loaded [("stacks", PList [PDict [("id", PStr "bare")]])])
           "bare" [("id", PStr "bare")] eq_refl).
  reflexivity.
Defined.

(** ** Characters and padding *)

(** The first character of a non-empty [str] starts with its first byte. *)
Lemma chars_cons c s : exists g gs, Py.chars (String c s) = String c g :: gs.
Proof.
  simpl. destruct (Py.chars s) as [|t ts]; [now exists EmptyString, []|].
  destruct t as [|c' t']; [now exists EmptyString, ts|].
  destruct (Py.continuation c'); eexists; eexists; reflexivity.
Qed.

(** Characters do not straddle a place where a character starts. *)
Lemma chars_app s t :
  match t with EmptyString => True | String d _ => Py.continuation d = false end ->
  Py.chars (s ++ t) = (Py.chars s ++ Py.chars t)%list.
Proof.
  intros Ht. induction s as [|c s IH]; [reflexivity|].
  cbn [append Py.chars]. rewrite IH.
  destruct (Py.chars s) as [|g gs] eqn:Es;
    [|simpl; destruct g as [|c' g']; [reflexivity|];
      destruct (Py.continuation c'); reflexivity].
  destruct s as [|c' s'].
  - destruct t as [|d t']; [reflexivity|].
    destruct (chars_cons d t') as [g [gs Hg]]. rewrite Hg. simpl. now rewrite Ht.
  - destruct (chars_cons c' s') as [g [gs Hg]]. rewrite Hg in Es. discriminate.
Qed.

Lemma py_len_spaces n : py_len (spaces n) = n.
Proof.
  unfold py_len. induction n as [|n IH]; [reflexivity|].
  change (spaces (S n)) with (String " " EmptyString ++ spaces n).
  rewrite chars_app; [simpl; now rewrite IH|].
  now destruct n.
Qed.

Lemma py_len_app_spaces s k : py_len (s ++ spaces k) = py_len s + k.
Proof.
  unfold py_len. rewrite chars_app.
  - rewrite length_app. pose proof (py_len_spaces k) as H. unfold py_len in H.
    now rewrite H.
  - destruct k; simpl; [exact I|reflexivity].
Qed.

Lemma py_len_ljust s width : py_len (ljust s width) = Nat.max (py_len s) width.
Proof.
  unfold ljust, py_len. rewrite chars_app.
  - rewrite length_app.
    pose proof (py_len_spaces (width - length (Py.chars s))) as H.
    unfold py_len in H. rewrite H. lia.
  - destruct (width - length (Py.chars s)); simpl; [exact I|reflexivity].
Qed.

Lemma fold_max_le l : forall a, a <= fold_left Nat.max l a.
Proof.
  induction l as [|x l IH]; intros a; simpl; [lia|].
  specialize (IH (Nat.max a x)). lia.
Qed.

Lemma fold_max_bound l : forall a x, In x l -> x <= fold_left Nat.max l a.
Proof.
  induction l as [|y l IH]; intros a x Hin; simpl; [easy|].
  destruct Hin as [->|Hin]; [|now apply IH].
  pose proof (fold_max_le l (Nat.max a x)). lia.
Qed.

Lemma fold_max_attained l : forall a,
  fold_left Nat.max l a = a \/ In (fold_left Nat.max l a) l.
Proof.
  induction l as [|y l IH]; intros a; simpl; [now left|].
  destruct (IH (Nat.max a y)) as [H|H]; [|now right; right].
  rewrite H. destruct (Nat.max_spec a y) as [[_ E]|[_ E]]; rewrite E; auto.
Qed.

Lemma max_label_len_bound labels l :
  In l labels -> py_len l <= Formatter.max_label_len labels.
Proof.
  destruct labels as [|l0 rest]; [easy|]. simpl.
  intros [->|Hin]; [apply fold_max_le|].
  apply fold_max_bound. now apply in_map.
Qed.

Lemma max_label_len_attained labels :
  labels <> [] -> exists l, In l labels /\ py_len l = Formatter.max_label_len labels.
Proof.
  destruct labels as [|l0 rest]; [easy|]. intros _. simpl.
  destruct (fold_max_attained (map py_len rest) (py_len l0)) as [H|H].
  - exists l0. split; [now left|now rewrite H].
  - apply in_map_iff in H as [l [Hl Hin]]. exists l. split; [now right|exact Hl].
Qed.

(** X11. In a status box every label is followed by spaces up to one common
    width, the length in characters of the longest label, so that the
    colons and the values line up; the box has one line for each item, in
    their order, and no items give an empty box, not an error. *)
Theorem format_status_box_aligned (title : string)
  (items : list Formatter.StatusInfo) (border_style : string) :
  exists width cells,
    Rich.renderable (Formatter.format_status_box title items border_style)
    = String.concat nl
        (map (fun ci =>
                "  [dim]" ++ fst ci ++ ":[/dim]  ["
                ++ Formatter.status_color (Formatter.style (snd ci)) ++ "]"
                ++ Formatter.value (snd ci)
                ++ "[/" ++ Formatter.status_color (Formatter.style (snd ci)) ++ "]")
             (combine cells items))
    /\ length cells = length items
    /\ (forall cell item, In (cell, item) (combine cells items) ->
          py_len cell = width
          /\ exists k, cell = Formatter.label item ++ spaces k)
    /\ (forall item, In item items -> py_len (Formatter.label item) <= width)
    /\ (items <> [] ->
          exists item, In item items /\ py_len (Formatter.label item) = width)
    /\ (items = [] ->
          Rich.renderable (Formatter.format_status_box title items border_style) = "").
Proof.
  set (w := Formatter.max_label_len (map Formatter.label items)).
  exists w, (map (fun item => ljust (Formatter.label item) w) items).
  assert (Hb : forall item, In item items -> py_len (Formatter.label item) <= w).
  { intros item Hin. apply max_label_len_bound. now apply in_map. }
  split; [|split; [|split; [|split; [|split]]]].
  - unfold Formatter.format_status_box. cbn [Rich.renderable]. fold w. f_equal.
    clear Hb. generalize w. intros n.
    induction items as [|i items IH]; [reflexivity|]. simpl. now rewrite IH.
  - now rewrite length_map.
  - intros cell item Hin.
    assert (Hc : cell = ljust (Formatter.label item) w /\ In item items).
    { clear Hb. revert Hin. generalize w. intros n.
      induction items as [|i items IH]; simpl; [easy|].
      intros [H|H]; [inversion H; subst; auto|].
      destruct (IH H) as [? ?]. auto. }
    destruct Hc as [-> Hin']. split.
    + rewrite py_len_ljust. specialize (Hb item Hin'). lia.
    + eexists. reflexivity.
  - exact Hb.
  - intros Hne.
    destruct (max_label_len_attained (map Formatter.label items)) as [l [Hin Hl]].
    { destruct items; [now elim Hne|discriminate]. }
    apply in_map_iff in Hin as [item [<- Hin]]. now exists item.
  - intros ->. reflexivity.
Qed.

(** ** The multi-step progress display *)

Lemma dict_get_set_same k v d : Formatter.dict_get k (Formatter.dict_set k v d) = Some v.
Proof.
  induction d as [|[k' v'] d IH]; simpl.
  - now rewrite String.eqb_refl.
  - destruct (String.eqb k' k) eqn:E; simpl; rewrite E; [reflexivity|exact IH].
Qed.

Lemma dict_get_set_other k k' v d :
  k <> k' -> Formatter.dict_get k' (Formatter.dict_set k v d) = Formatter.dict_get k' d.
Proof.
  intros Hne. induction d as [|[k0 v0] d IH]; simpl.
  - apply String.eqb_neq in Hne. now rewrite Hne.
  - destruct (String.eqb k0 k) eqn:E; simpl.
    + apply String.eqb_eq in E. subst k0.
      apply String.eqb_neq in Hne. now rewrite Hne.
    + now rewrite IH.
Qed.

(** The statuses [__init__] writes: [pending] for the steps, nothing else. *)
Lemma init_status step steps : forall d,
  Formatter.dict_get step (fold_left (fun d s => Formatter.dict_set s "pending" d) steps d)
  = if existsb (String.eqb step) steps then Some "pending" else Formatter.dict_get step d.
Proof.
  induction steps as [|s steps IH]; intros d; simpl; [reflexivity|].
  rewrite IH. destruct (existsb (String.eqb step) steps); [now rewrite orb_true_r|].
  rewrite orb_false_r. destruct (String.eqb step s) eqn:E.
  - apply String.eqb_eq in E. subst s. apply dict_get_set_same.
  - apply String.eqb_neq in E. apply dict_get_set_other. congruence.
Qed.




(** The status of a step after one call. *)
Lemma status_after_call step c p :
  Formatter.dict_get step (Formatter.step_status (snd (Formatter.run_call c p)))
  = match Formatter.dict_get step (Formatter.step_status p) with
    | None => None
    | Some old =>
        Some (match Formatter.written step c with Some s => s | None => old end)
    end.
Proof.
  assert (Hmark : forall status s,
    Formatter.dict_get step
      (Formatter.step_status (snd (Formatter.mark_step status s p)))
    = match Formatter.dict_get step (Formatter.step_status p) with
      | None => None
      | Some old => Some (if String.eqb s step then status else old)
      end).
  { intros status s. unfold Formatter.mark_step, Formatter.dict_mem.
    destruct (Formatter.dict_get s (Formatter.step_status p)) as [v|] eqn:Es.
    - assert (E : Formatter.dict_get step (Formatter.dict_set s status (Formatter.step_status p))
                  = match Formatter.dict_get step (Formatter.step_status p) with
                    | None => None
                    | Some old => Some (if String.eqb s step then status else old)
                    end).
      { destruct (String.eqb s step) eqn:E.
        - apply String.eqb_eq in E. subst s. rewrite dict_get_set_same. now rewrite Es.
        - apply String.eqb_neq in E. rewrite dict_get_set_other by exact E.
          now destruct (Formatter.dict_get step (Formatter.step_status p)). }
      cbn [Formatter._live]. destruct (Formatter._live p); [|exact E].
      destruct (Formatter._render _); exact E.
    - simpl. destruct (String.eqb s step) eqn:E.
      + apply String.eqb_eq in E. subst s. now rewrite Es.
      + now destruct (Formatter.dict_get step (Formatter.step_status p)). }
  destruct c; simpl;
    try (unfold Formatter.start_step, Formatter.complete_step, Formatter.fail_step,
           Formatter.skip_step; rewrite Hmark;
         destruct (Formatter.dict_get step (Formatter.step_status p)); [|reflexivity];
         now destruct (String.eqb _ step)).
  - unfold Formatter.enter. destruct (Formatter._render p); simpl;
      now destruct (Formatter.dict_get step (Formatter.step_status p)).
  - unfold Formatter.exit. destruct (Formatter._live p); simpl;
      [destruct (Formatter._render _); simpl|];
      now destruct (Formatter.dict_get step (Formatter.step_status p)).
Qed.


Lemma status_after_calls step calls : forall p,
  Formatter.dict_get step (Formatter.step_status (Formatter.run_calls calls p))
  = match Formatter.dict_get step (Formatter.step_status p) with
    | None => None
    | Some old =>
        Some (fold_left (fun status c =>
                           match Formatter.written step c with
                           | Some s => s
                           | None => status
                           end) calls old)
    end.
Proof.
  unfold Formatter.run_calls.
  induction calls as [|c calls IH]; intros p; simpl.
  - now destruct (Formatter.dict_get step (Formatter.step_status p)).
  - rewrite IH, status_after_call.
    now destruct (Formatter.dict_get step (Formatter.step_status p)).
Qed.



(** X12. The status a progress display holds for one of its steps is the
    one written by the last call about that step, whatever was written
    before ([pending] when there was none): no order of the statuses is
    imposed. A call about a name that is not a step is ignored, the name
    never gets a status. *)
Theorem step_status_last_written (steps : list string) (title step : string)
  (calls : list Formatter.call) :
  Formatter.dict_get step
    (Formatter.step_status (Formatter.run_calls calls (Formatter.new_progress steps title)))
  = if existsb (String.eqb step) steps
    then Some (Formatter.last_written step calls)
    else None.
Proof.
  rewrite status_after_calls. unfold Formatter.new_progress.
  cbn [Formatter.step_status]. rewrite init_status.
  now destruct (existsb (String.eqb step) steps).
Qed.



(** ** The package table *)

Lemma starts_with_spec needle haystack :
  starts_with needle haystack = true <-> exists rest, haystack = needle ++ rest.
Proof.
  revert haystack. induction needle as [|a needle IH]; intros haystack; simpl.
  - split; [intros _; now exists haystack|reflexivity].
  - destruct haystack as [|b haystack]; [split; [discriminate|intros [r H]; discriminate H]|].
    rewrite andb_true_iff, Ascii.eqb_eq, IH. split.
    + intros [-> [r ->]]. now exists r.
    + intros [r H]. inversion H; subst. split; [reflexivity|now exists r].
Qed.

(** [contains] is the test for a substring. *)
Lemma contains_spec needle haystack :
  contains needle haystack = true
  <-> exists before rest, haystack = before ++ needle ++ rest.
Proof.
  induction haystack as [|c haystack IH].
  - simpl. rewrite orb_false_r, starts_with_spec. split.
    + intros [r H]. now exists "", r.
    + intros [[|b before] [r H]]; [now exists r|discriminate H].
  - cbn [contains]. rewrite orb_true_iff, starts_with_spec, IH. split.
    + intros [[r H]|[before [r H]]].
      * now exists "", r.
      * exists (String c before), r. simpl. now rewrite H.
    + intros [[|b before] [r H]].
      * left. now exists r.
      * right. inversion H; subst. now exists before, r.
Qed.

Lemma contains_tail a b haystack :
  contains (a ++ b) haystack = true -> contains b haystack = true.
Proof.
  rewrite !contains_spec. intros [before [rest H]].
  exists (before ++ a), rest. now rewrite H, !append_assoc.
Qed.

Lemma length_append a b : String.length (a ++ b) = String.length a + String.length b.
Proof. induction a as [|c a IH]; simpl; [reflexivity|now rewrite IH]. Qed.

(** X14. In the package table an action that mentions [uninstall] is
    styled green, as an installation is, and not red: the test for
    [install] comes first and finds it inside [uninstall]. *)
Theorem uninstall_styled_green (lower : string -> string)
  (packages : list (string * string * string)) (title name version action : string)
  (Hin : In (name, version, action) packages)
  (Hun : contains "uninstall" (lower action) = true) :
  In ([name; version; "[green]" ++ action ++ "[/green]"], None)
     (Rich.rows (Branding.cx_package_table lower packages title)).
Proof.
  unfold Branding.cx_package_table. cbn [Rich.rows].
  apply in_map_iff. exists (name, version, action). split; [|exact Hin].
  unfold Branding.action_styled.
  now rewrite (contains_tail "un" "install" _ Hun).
Qed.

Lemma uninstall_styled_green_witness :
  In (["nginx"; "1.24.0"; "[green]Uninstall[/green]"], None)
     (Rich.rows (Branding.cx_package_table Branding.ascii_lower
                   [("docker.io", "24.0.5", "Install"); ("nginx", "1.24.0", "Uninstall")]
                   "Plan")).
Proof.
  apply (uninstall_styled_green Branding.ascii_lower
           [("docker.io", "24.0.5", "Install"); ("nginx", "1.24.0", "Uninstall")]
           "Plan" "nginx" "1.24.0" "Uninstall").
  - right. left. reflexivity.
  - reflexivity.
Defined.

(** X15. The red style is given to an action only when it mentions
    [remove] and does not mention [install]. *)
Theorem red_needs_remove (lower : string -> string) (action : string)
  (Hred : Branding.action_styled lower action = "[red]" ++ action ++ "[/red]") :
  contains "remove" (lower action) = true
  /\ contains "install" (lower action) = false.
Proof.
  unfold Branding.action_styled in Hred.
  destruct (contains "install" (lower action)) eqn:Ei; [discriminate Hred|].
  split; [|reflexivity].
  destruct (contains "remove" (lower action)) eqn:Er; [reflexivity|].
  destruct (contains "uninstall" (lower action)) eqn:Eu.
  - rewrite (contains_tail "un" "install" _ Eu) in Ei. discriminate Ei.
  - cbn [orb] in Hred.
    destruct (contains "update" (lower action) || contains "upgrade" (lower action));
      [discriminate Hred|].
    apply (f_equal String.length) in Hred.
    rewrite !length_append in Hred. simpl in Hred. lia.
Qed.

Lemma red_needs_remove_witness :
  contains "remove" (Branding.ascii_lower "Remove") = true
  /\ contains "install" (Branding.ascii_lower "Remove") = false.
Proof.
  apply (red_needs_remove Branding.ascii_lower "Remove"). reflexivity.
Defined.

(** ** Rows and their styles *)

Lemma add_rows_nth row_styles rows : forall i j row,
  nth_error rows j = Some row ->
  nth_error (Formatter.add_rows row_styles i rows) j
  = Some (row, Formatter.row_style row_styles (i + j)).
Proof.
  induction rows as [|r rows IH]; intros i j row H.
  - now destruct j.
  - destruct j as [|j]; simpl in *.
    + inversion H; subst. now rewrite Nat.add_0_r.
    + rewrite (IH (S i) j row H). do 3 f_equal. lia.
Qed.

Lemma row_style_nth row_styles i :
  Formatter.row_style row_styles i
  = match row_styles with Some l => nth_error l i | None => None end.
Proof.
  destruct row_styles as [[|s l]|]; simpl; try reflexivity.
  - now destruct i.
  - destruct i as [|i]; [reflexivity|].
    destruct (S i <? S (length l))%nat eqn:E; [reflexivity|].
    apply Nat.ltb_ge in E. symmetry. apply nth_error_None. simpl. lia.
Qed.

Lemma length_add_rows row_styles rows : forall i,
  length (Formatter.add_rows row_styles i rows) = length rows.
Proof. induction rows as [|r rows IH]; intros i; simpl; [reflexivity|now rewrite IH]. Qed.

(** X16. [format_table] keeps the rows and their order, and gives the row
    at an index the style at that index when there is one: rows beyond the
    styles given are left without style, no index error is raised, and
    styles beyond the rows are not used. *)
Theorem format_table_row_styles (columns : list Formatter.TableColumn)
  (rows : list (list string)) (title : option string) (show_header show_lines : bool)
  (row_styles : option (list string)) :
  let table := Formatter.format_table columns rows title show_header show_lines row_styles in
  length (Rich.rows table) = length rows
  /\ forall j row,
       nth_error rows j = Some row ->
       nth_error (Rich.rows table) j
       = Some (row, match row_styles with Some l => nth_error l j | None => None end).
Proof.
  unfold Formatter.format_table. cbn [Rich.rows]. split.
  - apply length_add_rows.
  - intros j row H. rewrite (add_rows_nth _ _ 0 j row H). now rewrite row_style_nth.
Qed.

(** ** Durations *)



(** ** The dependency tree *)

Lemma add_branches_mono (f g : string -> option (list Rich.Tree)) deps r :
  (forall dep x, In dep deps -> f dep = Some x -> g dep = Some x) ->
  Formatter.add_branches f deps = Some r -> Formatter.add_branches g deps = Some r.
Proof.
  revert r. induction deps as [|dep deps IH]; intros r Hfg; simpl; [easy|].
  destruct (f dep) as [under|] eqn:Ef; [|discriminate].
  rewrite (Hfg dep under (or_introl eq_refl) Ef).
  destruct (Formatter.add_branches f deps) as [others|] eqn:Eo; [|discriminate].
  rewrite (IH others); [easy| |reflexivity].
  intros d x Hd. apply Hfg. now right.
Qed.

Lemma add_branches_total (f : string -> option (list Rich.Tree)) deps :
  (forall dep, In dep deps -> exists x, f dep = Some x) ->
  exists r, Formatter.add_branches f deps = Some r.
Proof.
  induction deps as [|dep deps IH]; intros Hf; simpl; [now exists []|].
  destruct (Hf dep (or_introl eq_refl)) as [under ->].
  destruct IH as [others ->]; [intros d Hd; apply Hf; now right|].
  eexists. reflexivity.
Qed.

(** More depth allowed does not change what [add_deps] adds. *)
Lemma add_deps_more_fuel dependencies : forall fuel pkg visited r,
  Formatter.add_deps fuel dependencies pkg visited = Some r ->
  Formatter.add_deps (S fuel) dependencies pkg visited = Some r.
Proof.
  induction fuel as [|fuel IH]; intros pkg visited r H; [discriminate H|].
  cbn [Formatter.add_deps] in *.
  destruct (Py.mem pkg visited); [exact H|].
  revert H. apply add_branches_mono. intros dep x _ Hx. now apply IH.
Qed.

Lemma add_deps_fuel_le dependencies pkg visited r : forall fuel fuel',
  fuel <= fuel' ->
  Formatter.add_deps fuel dependencies pkg visited = Some r ->
  Formatter.add_deps fuel' dependencies pkg visited = Some r.
Proof.
  intros fuel fuel' Hle H. induction Hle; [exact H|].
  now apply add_deps_more_fuel.
Qed.

Lemma unvisited_le dependencies pkg visited :
  Formatter.unvisited dependencies (pkg :: visited)
  <= Formatter.unvisited dependencies visited.
Proof.
  unfold Formatter.unvisited.
  set (P1 := fun kv : string * list string => negb (Py.mem (fst kv) (pkg :: visited))).
  set (P2 := fun kv : string * list string => negb (Py.mem (fst kv) visited)).
  induction dependencies as [|kv d IH]; cbn [filter]; [reflexivity|].
  destruct (P1 kv) eqn:E1, (P2 kv) eqn:E2; cbn [length]; try lia.
  exfalso. unfold P1, P2 in E1, E2. cbn [Py.mem] in E1.
  apply negb_false_iff in E2. rewrite E2, orb_true_r in E1. discriminate E1.
Qed.

(** Visiting a package that has an entry leaves less to visit. *)
Lemma unvisited_lt dependencies pkg visited :
  Py.mem pkg visited = false ->
  Formatter.deps_of pkg dependencies <> [] ->
  Formatter.unvisited dependencies (pkg :: visited)
  < Formatter.unvisited dependencies visited.
Proof.
  intros Hm. unfold Formatter.unvisited.
  set (P1 := fun kv : string * list string => negb (Py.mem (fst kv) (pkg :: visited))).
  set (P2 := fun kv : string * list string => negb (Py.mem (fst kv) visited)).
  induction dependencies as [|[k deps] d IH]; cbn [filter Formatter.deps_of]; [easy|].
  intros Hd.
  pose proof (unvisited_le d pkg visited) as Hle.
  unfold Formatter.unvisited in Hle. fold P1 P2 in Hle.
  destruct (String.eqb k pkg) eqn:E.
  - apply String.eqb_eq in E. subst k.
    assert (E1 : P1 (pkg, deps) = false).
    { unfold P1. cbn [fst Py.mem]. now rewrite String.eqb_refl. }
    assert (E2 : P2 (pkg, deps) = true).
    { unfold P2. cbn [fst]. now rewrite Hm. }
    rewrite E1, E2. cbn [length]. lia.
  - specialize (IH Hd).
    destruct (P1 (k, deps)) eqn:E1, (P2 (k, deps)) eqn:E2; cbn [length]; try lia.
    exfalso. unfold P1, P2 in E1, E2. cbn [fst Py.mem] in E1. cbn [fst] in E2.
    apply negb_false_iff in E2. rewrite E2, orb_true_r in E1. discriminate E1.
Qed.

(** A depth above the number of entries not yet visited is enough. *)
Lemma add_deps_enough dependencies : forall fuel pkg visited,
  Formatter.unvisited dependencies visited < fuel ->
  exists r, Formatter.add_deps fuel dependencies pkg visited = Some r.
Proof.
  induction fuel as [|fuel IH]; intros pkg visited Hlt; [lia|].
  cbn [Formatter.add_deps].
  destruct (Py.mem pkg visited) eqn:Hm; [eexists; reflexivity|].
  destruct (Formatter.deps_of pkg dependencies) as [|dep deps] eqn:Ed;
    [now exists []|].
  apply add_branches_total. intros d _. apply IH.
  pose proof (unvisited_lt dependencies pkg visited Hm) as H.
  rewrite Ed in H. specialize (H ltac:(discriminate)). lia.
Qed.

Lemma height_children n children :
  Forall (fun t => Formatter.height t <= n) children ->
  fold_right (fun c h => Nat.max (Formatter.height c) h) 0 children <= n.
Proof. intros H. induction H; cbn [fold_right]; lia. Qed.

Lemma height_branches (f : string -> option (list Rich.Tree)) deps n : forall r,
  (forall dep x, f dep = Some x -> Forall (fun t => Formatter.height t <= n) x) ->
  Formatter.add_branches f deps = Some r ->
  Forall (fun t => Formatter.height t <= S n) r.
Proof.
  induction deps as [|dep deps IH]; intros r Hf; simpl.
  - intros H. inversion H. constructor.
  - destruct (f dep) as [under|] eqn:Ef; [|discriminate].
    destruct (Formatter.add_branches f deps) as [others|] eqn:Eo; [|discriminate].
    intros H. inversion H; subst. constructor; [|now apply IH].
    specialize (Hf dep under Ef). cbn [Formatter.height].
    apply le_n_S. now apply height_children.
Qed.

Lemma height_add_deps dependencies : forall fuel pkg visited r,
  Formatter.add_deps fuel dependencies pkg visited = Some r ->
  Forall (fun t => Formatter.height t <= fuel) r.
Proof.
  induction fuel as [|fuel IH]; intros pkg visited r H; [discriminate H|].
  cbn [Formatter.add_deps] in H.
  destruct (Py.mem pkg visited).
  - inversion H. constructor; [cbn [Formatter.height fold_right]; lia|constructor].
  - revert H. apply height_branches. intros dep x Hx. now apply IH in Hx.
Qed.

(** X18. [format_dependency_tree] ends for every dict of dependencies,
    also one with cycles: a depth of recursion of one more than the number
    of entries gives the tree, and allowing more gives the same tree. The
    tree has at most two levels more than the dict has entries. *)
Theorem format_dependency_tree_total (package : string)
  (dependencies : list (string * list string)) (title : option string) :
  exists tree,
    (forall fuel, length dependencies < fuel ->
       Formatter.format_dependency_tree fuel package dependencies title = Some tree)
    /\ Formatter.height tree <= length dependencies + 2.
Proof.
  assert (Hu : Formatter.unvisited dependencies [] = length dependencies).
  { unfold Formatter.unvisited. induction dependencies as [|[k d] ds IH]; simpl; auto. }
  destruct (add_deps_enough dependencies (S (length dependencies)) package [])
    as [branches Hb]; [lia|].
  unfold Formatter.format_dependency_tree.
  eexists. split.
  - intros fuel Hlt.
    rewrite (add_deps_fuel_le dependencies package [] branches
               (S (length dependencies)) fuel ltac:(lia) Hb).
    reflexivity.
  - pose proof (height_children _ _ (height_add_deps _ _ _ _ _ Hb)) as Hh.
    cbn [Formatter.height]. lia.
Qed.

Lemma format_dependency_tree_total_witness :
  Formatter.format_dependency_tree 3 "a" [("a", ["b"]); ("b", ["a"])] None
  = Some (Rich.Node "[bold cyan]a[/bold cyan]"
            [Rich.Node "[cyan]b[/cyan]"
               [Rich.Node "[cyan]a[/cyan]"
                  [Rich.Node "[dim]a (circular)[/dim]" []]]]).
Proof.
  destruct (format_dependency_tree_total "a" [("a", ["b"]); ("b", ["a"])] None)
    as [tree [Htree _]].
  rewrite (Htree 3 ltac:(simpl; lia)).
  symmetry. rewrite <- (Htree 4 ltac:(simpl; lia)). reflexivity.
Defined.

(** ** The boxes and tables on small inputs *)

Lemma format_status_box_aligned_witness :
  exists width cells,
    length cells = 2
    /\ (forall cell item,
          In (cell, item)
             (combine cells
                [Formatter.mkStatusInfo "Status" "Active" Formatter.SUCCESS;
                 Formatter.mkStatusInfo "CPU Usage" "12%" Formatter.INFO]) ->
          py_len cell = width
          /\ exists k, cell = Formatter.label item ++ spaces k).
Proof.
  destruct (format_status_box_aligned "CORTEX ML SCHEDULER"
              [Formatter.mkStatusInfo "Status" "Active" Formatter.SUCCESS;
               Formatter.mkStatusInfo "CPU Usage" "12%" Formatter.INFO] "cyan")
    as [width [cells [_ [Hlen [Hcells _]]]]].
  exists width, cells. split; [exact Hlen|exact Hcells].
Defined.

Lemma format_table_row_styles_witness :
  nth_error
    (Rich.rows (Formatter.format_table
                  [Formatter.mkTableColumn "Package" "cyan" "left" None false]
                  [["nginx"]; ["docker.io"]] None true false (Some ["bold"]))) 1
  = Some (["docker.io"], None).
Proof.
  apply (format_table_row_styles
           [Formatter.mkTableColumn "Package" "cyan" "left" None false]
           [["nginx"]; ["docker.io"]] None true false (Some ["bold"])).
  reflexivity.
Defined.
